(** * ESPN QBR loader ([espn.py]): a shallow embedding and its properties

    The module [espn.py] defines one class, [Qbr], whose [load_qbr] method
    normalises the request parameters, walks the requested pages, and binds
    the tables it reads into one frame.  This development embeds the class
    in Rocq:

    - Python values are the scalars and flat lists a caller passes for
      years and weeks ([scalar], [pyval]);
    - [str] objects are strings of code points below 256;
    - method bodies live in a small monad [M] that threads the mutable
      state (the object, or a method's local variables), records what is
      printed and which addresses are read, and carries exceptions;
    - pandas is outside the repository: a frame is seen row by row, a row
      being its labelled cells, and [pd.read_html] is a section variable. *)

From Stdlib Require Import ZArith List String Ascii Bool Lia.
From Stdlib Require Import DecimalString DecimalZ.
Import ListNotations.

Local Open Scope string_scope.
Local Open Scope list_scope.
Local Open Scope Z_scope.

(** ** Python values *)

Inductive scalar : Type :=
| SNone
| SBool (b : bool)
| SInt (z : Z)
| SStr (s : string).

Inductive pyval : Type :=
| PScalar (a : scalar)
| PList (l : list scalar).

Definition PNone : pyval := PScalar SNone.

(** [isinstance(x, int)]: [bool] is a subclass of [int]. *)
Definition isinstance_int (a : scalar) : bool :=
  match a with
  | SInt _ | SBool _ => true
  | _ => false
  end.

(** [x == n] for an integer literal [n]. *)
Definition py_eq_int (a : scalar) (n : Z) : bool :=
  match a with
  | SInt z => z =? n
  | SBool b => (if b then 1 else 0) =? n
  | _ => false
  end.

(** [v == 'lit'] for a string literal. *)
Definition py_eq_str (v : pyval) (lit : string) : bool :=
  match v with
  | PScalar (SStr s) => String.eqb s lit
  | _ => false
  end.

(** [str(x)], as an f-string field formats it. *)
Definition py_str (a : scalar) : string :=
  match a with
  | SNone => "None"
  | SBool true => "True"
  | SBool false => "False"
  | SInt z => NilZero.string_of_int (Z.to_int z)
  | SStr s => s
  end.

(** ** [str.lower] and [str.strip] on code points below 256 *)

Definition py_lower_char (c : ascii) : ascii :=
  let n := N_of_ascii c in
  if ((65 <=? n) && (n <=? 90))%N
     || ((192 <=? n) && (n <=? 222) && negb (n =? 215))%N
  then ascii_of_N (n + 32)
  else c.

Fixpoint lower (s : string) : string :=
  match s with
  | EmptyString => EmptyString
  | String c s' => String (py_lower_char c) (lower s')
  end.

Definition py_isspace (c : ascii) : bool :=
  let n := N_of_ascii c in
  (((9 <=? n) && (n <=? 13)) || ((28 <=? n) && (n <=? 32))
   || (n =? 133) || (n =? 160))%N.

Fixpoint lstrip (s : string) : string :=
  match s with
  | EmptyString => EmptyString
  | String c s' => if py_isspace c then lstrip s' else s
  end.

Fixpoint rstrip (s : string) : string :=
  match s with
  | EmptyString => EmptyString
  | String c s' =>
      match rstrip s' with
      | EmptyString => if py_isspace c then EmptyString else String c EmptyString
      | r => String c r
      end
  end.

Definition strip (s : string) : string := rstrip (lstrip s).

(** ** Frames *)

Definition row : Type := list (string * scalar).
Definition DataFrame : Type := list row.

(** What a loader hands back: a frame, or the empty list [[]]. *)
Inductive loaded : Type :=
| Frame (d : DataFrame)
| EmptyList.

Fixpoint lookup (name : string) (r : row) : option scalar :=
  match r with
  | [] => None
  | (k, v) :: r' => if String.eqb k name then Some v else lookup name r'
  end.

Definition has_label (name : string) (r : row) : bool :=
  existsb (fun kv => String.eqb (fst kv) name) r.

(** One row of [df[name] = v]: an existing label keeps its place, a new one
    goes last. *)
Definition set_cell (name : string) (v : scalar) (r : row) : row :=
  if has_label name r
  then map (fun kv => if String.eqb (fst kv) name then (fst kv, v) else kv) r
  else r ++ [(name, v)].

(** [df[name] = v] with a scalar [v]. *)
Definition set_column (name : string) (v : scalar) (df : DataFrame) : DataFrame :=
  map (set_cell name v) df.

(** ** Exceptions, events and the method monad *)

Inductive exn : Type :=
| ImportError
| TypeError
| ValueError
| KeyError
| UnboundLocalError
| HTTPError.

Inductive event : Type :=
| Print (msg : string)
| Fetch (url : string).

Inductive outcome (A : Type) : Type :=
| Return (a : A)
| Raise (e : exn).
Arguments Return {A} a.
Arguments Raise {A} e.

Definition M (S A : Type) : Type := S -> outcome A * S * list event.

Definition ret {S A} (a : A) : M S A := fun s => (Return a, s, []).

Definition bind {S A B} (m : M S A) (k : A -> M S B) : M S B :=
  fun s =>
    match m s with
    | (Return a, s1, t1) =>
        match k a s1 with
        | (o, s2, t2) => (o, s2, t1 ++ t2)
        end
    | (Raise e, s1, t1) => (Raise e, s1, t1)
    end.

Declare Scope py_scope.
Delimit Scope py_scope with py.
Notation "x <- m ;; k" := (bind m (fun x => k))
  (at level 100, m at next level, right associativity) : py_scope.
Notation "m ;; k" := (bind m (fun _ => k))
  (at level 100, right associativity) : py_scope.
Local Open Scope py_scope.

Definition raise {S A} (e : exn) : M S A := fun s => (Raise e, s, []).
Definition lift {S A} (o : outcome A) : M S A := fun s => (o, s, []).
Definition print {S} (msg : string) : M S unit := fun s => (Return tt, s, [Print msg]).
Definition get {S} : M S S := fun s => (Return s, s, []).
Definition modify {S} (f : S -> S) : M S unit := fun s => (Return tt, f s, []).

(** [try: body except ...: handler].  What [body] did to the state and to
    the trace before it raised stays done. *)
Definition try_except {S} (body : M S unit) (handler : exn -> option (M S unit))
  : M S unit :=
  fun s =>
    match body s with
    | (Return a, s1, t1) => (Return a, s1, t1)
    | (Raise e, s1, t1) =>
        match handler e with
        | Some h => match h s1 with (o, s2, t2) => (o, s2, t1 ++ t2) end
        | None => (Raise e, s1, t1)
        end
    end.

(** A call: the callee runs on locals of its own. *)
Definition call {S A} (r : outcome A * list event) : M S A :=
  fun s => (fst r, s, snd r).

Fixpoint for_each {S X} (l : list X) (body : X -> M S unit) : M S unit :=
  match l with
  | [] => ret tt
  | x :: l' => body x ;; for_each l' body
  end.

(** [iter(v)]: a list yields its elements, a string its characters, and
    nothing else here is iterable. *)
Definition py_iter (v : pyval) : outcome (list scalar) :=
  match v with
  | PList l => Return l
  | PScalar (SStr s) =>
      Return (map (fun c => SStr (String c EmptyString)) (list_ascii_of_string s))
  | PScalar _ => Raise TypeError
  end.

(** [for x in v: body]. *)
Definition for_in {S} (v : pyval) (body : scalar -> M S unit) : M S unit :=
  l <- lift (py_iter v) ;; for_each l body.

(** ** pandas *)

(** [pd.concat(dfs, axis=1)]: rows of equal position side by side. *)
Fixpoint bind_columns (a b : DataFrame) : DataFrame :=
  match a, b with
  | [], _ => b
  | _, [] => a
  | r :: a', s :: b' => (r ++ s) :: bind_columns a' b'
  end.

Definition concat_columns (dfs : list DataFrame) : outcome DataFrame :=
  match dfs with
  | [] => Raise ValueError
  | d :: ds => Return (fold_left bind_columns ds d)
  end.

(** [pd.concat(dfs, ignore_index=True)]: rows one frame after the other. *)
Definition concat_rows (dfs : list DataFrame) : outcome DataFrame :=
  match dfs with
  | [] => Raise ValueError
  | _ :: _ => Return (List.concat dfs)
  end.

(** How many cells of a row carry the label [name], and how many columns of
    a frame do: a row that lacks a cell of a column stands for a missing
    value there, and a frame without rows shows no label. *)
Definition label_count (name : string) (r : row) : nat :=
  List.length (filter (fun kv => String.eqb (fst kv) name) r).

Definition column_count (name : string) (df : DataFrame) : nat :=
  fold_right (fun r k => Nat.max (label_count name r) k) 0%nat df.

(** The cells of the column labelled [name], one per row. *)
Fixpoint column_cells (name : string) (df : DataFrame) : outcome (list scalar) :=
  match df with
  | [] => Return []
  | r :: df' =>
      match lookup name r, column_cells name df' with
      | Some v, Return vs => Return (v :: vs)
      | None, _ => Raise KeyError
      | _, Raise e => Raise e
      end
  end.

(** [for x in df[name]]: what iterating [df[name]] yields.  With the label on
    one column, [df[name]] is that column and yields its cells.  With the
    label on several columns, [df[name]] is a frame, and iterating a frame
    yields its column labels: [name], once per column so labelled. *)
Definition get_column (name : string) (df : DataFrame) : outcome (list scalar) :=
  if (2 <=? column_count name df)%nat
  then Return (repeat (SStr name) (column_count name df))
  else column_cells name df.

(** No row carries the label [name] more than once. *)
Definition single_label (name : string) (df : DataFrame) : bool :=
  forallb (fun r => (label_count name r <=? 1)%nat) df.

(** [df[name] = values] with a list of values, one per row. *)
Fixpoint set_column_list (name : string) (vals : list scalar) (df : DataFrame)
  : outcome DataFrame :=
  match vals, df with
  | [], [] => Return []
  | v :: vals', r :: df' =>
      match set_column_list name vals' df' with
      | Return d => Return (set_cell name v r :: d)
      | Raise e => Raise e
      end
  | _, _ => Raise ValueError
  end.

(** ** The class [Qbr] *)

Record Qbr : Type := mkQbr {
  years : pyval;
  weeks : pyval;
  season_type : pyval;
  stat_type : string
}.

(** [Qbr.__init__]. *)
Definition init (years weeks : pyval) (season_type stat_type : string) : Qbr :=
  {| years := years;
     weeks := weeks;
     season_type := PScalar (SStr (strip (lower season_type)));
     stat_type := strip (lower stat_type) |}.

Definition set_season_type (v : pyval) (q : Qbr) : Qbr :=
  {| years := years q; weeks := weeks q; season_type := v; stat_type := stat_type q |}.
Definition set_years (v : pyval) (q : Qbr) : Qbr :=
  {| years := v; weeks := weeks q; season_type := season_type q; stat_type := stat_type q |}.
Definition set_weeks (v : pyval) (q : Qbr) : Qbr :=
  {| years := years q; weeks := v; season_type := season_type q; stat_type := stat_type q |}.

Definition season_type_message : string :=
  "Please enter either: 'regular', 'postseason', or 'all'.".

(** [Qbr.convert_season_identifiers]: the parameter is never read, the
    object's field is.  [print] returns [None]. *)
Definition convert_season_identifiers (season_type_arg : pyval) : M Qbr pyval :=
  self <- get ;;
  if py_eq_str (season_type self) "regular" then ret (PList [SInt 2])
  else if py_eq_str (season_type self) "postseason" then ret (PList [SInt 3])
  else if py_eq_str (season_type self) "all" then ret (PList [SInt 2; SInt 3])
  else (print season_type_message ;; ret PNone).

(** The [for num in out_list] loop of [convert_to_list]: [false] when it
    returns [None] from inside, [true] when it falls through. *)
Fixpoint all_int_loop (out_list : list scalar) : bool :=
  match out_list with
  | [] => true
  | num :: rest => if negb (isinstance_int num) then false else all_int_loop rest
  end.

(** [Qbr.convert_to_list]. *)
Definition convert_to_list (weeks_or_years : pyval) : pyval :=
  match weeks_or_years with
  | PScalar a =>
      if isinstance_int a then PList ([] ++ [a]) else PNone
  | PList l =>
      let out_list := l in
      if all_int_loop out_list then PList out_list else PNone
  end.

(** ** The two fetch loops and the dispatcher *)

(** Local variables of a loader: the list [df] of collected frames and the
    frame to return ([weekly_df], [leaders_df]), unbound at first. *)
Record locals : Type := mkLocals {
  loc_df : list DataFrame;
  loc_out : option loaded
}.

Definition no_locals : locals := {| loc_df := []; loc_out := None |}.

Definition set_out (v : loaded) : M locals unit :=
  modify (fun l => {| loc_df := loc_df l; loc_out := Some v |}).

(** [return weekly_df] / [return leaders_df]. *)
Definition return_out : M locals loaded :=
  l <- get ;;
  match loc_out l with
  | Some v => ret v
  | None => raise UnboundLocalError
  end.

Definition weekly_url (year season_id week : scalar) : string :=
  "https://www.espn.com/nfl/qbr/_/view/weekly/season/" ++ py_str year
  ++ "/seasontype/" ++ py_str season_id ++ "/week/" ++ py_str week.

Definition leaders_url (year season_id : scalar) : string :=
  "https://www.espn.com/nfl/qbr/_/season/" ++ py_str year
  ++ "/seasontype/" ++ py_str season_id.

Definition weekly_import_message : string :=
  "No data to output. Check variables entered. "
  ++ "Note: there is no 'Week 4' webpage for postseason stats. "
  ++ "It is skipped, with Week 3 as Conference Championships, and "
  ++ "Week 5 as the Super Bowl.".

Definition parameters_message : string := "Please enter valid parameters.".
Definition no_data_message : string := "No data to output.".
Definition no_tables_message : string := "No tables found.".
Definition stat_type_message : string :=
  "Please enter an appropriate choice for stat types: " ++ "weekly or leaders.".

(** ['regular' if x == 2 else 'postseason']. *)
Definition season_label (x : scalar) : scalar :=
  if py_eq_int x 2 then SStr "regular" else SStr "postseason".

(** Lines 123 and 124 on a frame: [stg_df['season_type'] = season_id], then
    [stg_df['season_type'] = [... for x in stg_df['season_type']]]. *)
Definition tag_season (season_id : scalar) (stg_df : DataFrame)
  : outcome DataFrame :=
  match get_column "season_type" (set_column "season_type" season_id stg_df) with
  | Return col =>
      set_column_list "season_type" (map season_label col)
        (set_column "season_type" season_id stg_df)
  | Raise e => Raise e
  end.

(** What binding a list of collected frames gives, and prints. *)
Definition bound (frames : list DataFrame) : outcome loaded * list event :=
  match frames with
  | [] => (Return EmptyList, [Print no_data_message])
  | _ :: _ => (Return (Frame (List.concat frames)), [])
  end.

(** How a weekly load ends, from how its loop ended: with outcome [o],
    frames [frames] collected and trace [t]. *)
Definition weekly_end (o : outcome unit) (frames : list DataFrame)
           (t : list event) : outcome loaded * list event :=
  match o with
  | Return _ => (fst (bound frames), t ++ snd (bound frames))
  | Raise ImportError =>
      (fst (bound frames), t ++ Print weekly_import_message :: snd (bound frames))
  | Raise TypeError =>
      (fst (bound frames), t ++ Print parameters_message :: snd (bound frames))
  | Raise e => (Raise e, t)
  end.

(** The test that guards the week loop: postseason, week 4. *)
Definition skipped (season_id week : scalar) : bool :=
  py_eq_int season_id 3 && py_eq_int week 4.

(** The (season code, year, week) triples the three nested loops reach past
    the guard, in the order they reach them. *)
Definition weekly_pages (season_ids years weeks : list scalar)
  : list (scalar * scalar * scalar) :=
  flat_map (fun season_id =>
    flat_map (fun year =>
      flat_map (fun week =>
        if skipped season_id week then [] else [(season_id, year, week)])
        weeks)
      years)
    season_ids.

Definition page_url (p : scalar * scalar * scalar) : string :=
  match p with (season_id, year, week) => weekly_url year season_id week end.

Definition push_frame (d : DataFrame) (l : locals) : locals :=
  {| loc_df := loc_df l ++ [d]; loc_out := loc_out l |}.

Section Loader.

(** [pd.read_html]: the tables of a page, or the exception it raises. *)
Variable read_html : string -> outcome (list DataFrame).

Definition fetch {S} (url : string) : M S (list DataFrame) :=
  fun s => (read_html url, s, [Fetch url]).

(** The body of the innermost weekly loop, past the week-4 test. *)
Definition weekly_page (season_id year week : scalar) : M locals unit :=
  let url := weekly_url year season_id week in
  dfs <- fetch url ;;
  stg_df <- lift (concat_columns dfs) ;;
  let stg_df := set_column "year" year stg_df in
  let stg_df := set_column "season_type" season_id stg_df in
  col <- lift (get_column "season_type" stg_df) ;;
  stg_df <- lift (set_column_list "season_type" (map season_label col) stg_df) ;;
  modify (push_frame stg_df).

Definition weekly_loop (years weeks season_type : pyval) : M locals unit :=
  for_in season_type (fun season_id =>
    for_in years (fun year =>
      for_in weeks (fun week =>
        if skipped season_id week
        then ret tt
        else weekly_page season_id year week))).

(** The closing [try] of both loaders: bind the collected frames. *)
Definition bind_collected : M locals unit :=
  try_except
    (l <- get ;;
     d <- lift (concat_rows (loc_df l)) ;;
     set_out (Frame d))
    (fun e =>
       match e with
       | ValueError => Some (print no_data_message ;; set_out EmptyList)
       | _ => None
       end).

(** [Qbr.load_weekly_qbr]. *)
Definition load_weekly_qbr_body (years weeks season_type : pyval) : M locals loaded :=
  try_except (weekly_loop years weeks season_type)
    (fun e =>
       match e with
       | ImportError => Some (print weekly_import_message)
       | TypeError => Some (print parameters_message)
       | _ => None
       end) ;;
  bind_collected ;;
  return_out.

Definition load_weekly_qbr (years weeks season_type : pyval)
  : outcome loaded * list event :=
  match load_weekly_qbr_body years weeks season_type no_locals with
  | (o, _, t) => (o, t)
  end.

(** The body of the inner leaders loop. *)
Definition leaders_page (season_id year : scalar) : M locals unit :=
  let url := leaders_url year season_id in
  dfs <- fetch url ;;
  stg_df <- lift (concat_columns dfs) ;;
  let stg_df := set_column "year" year stg_df in
  modify (push_frame stg_df).

Definition leaders_loop (years season_type : pyval) : M locals unit :=
  for_in season_type (fun season_id =>
    for_in years (fun year => leaders_page season_id year)).

(** [Qbr.load_season_leaders_qbr]. *)
Definition load_season_leaders_qbr_body (years season_type : pyval) : M locals loaded :=
  try_except (leaders_loop years season_type)
    (fun e =>
       match e with
       | ValueError => Some (print no_tables_message ;; set_out EmptyList)
       | _ => None
       end) ;;
  bind_collected ;;
  return_out.

Definition load_season_leaders_qbr (years season_type : pyval)
  : outcome loaded * list event :=
  match load_season_leaders_qbr_body years season_type no_locals with
  | (o, _, t) => (o, t)
  end.

(** [Qbr.load_qbr].  [final_df] is bound in two of the three branches. *)
Definition load_qbr : M Qbr loaded :=
  self <- get ;;
  v <- convert_season_identifiers (season_type self) ;;
  modify (set_season_type v) ;;
  self <- get ;;
  modify (set_years (convert_to_list (years self))) ;;
  self <- get ;;
  modify (set_weeks (convert_to_list (weeks self))) ;;
  self <- get ;;
  final_df <-
    (if String.eqb (stat_type self) "weekly" then
       r <- call (load_weekly_qbr (years self) (weeks self) (season_type self)) ;;
       ret (Some r)
     else if String.eqb (stat_type self) "leaders" then
       r <- call (load_season_leaders_qbr (years self) (season_type self)) ;;
       ret (Some r)
     else
       print stat_type_message ;; ret None) ;;
  match final_df with
  | Some r => ret r
  | None => raise UnboundLocalError
  end.

(** The tables of a page bound side by side, when the page has any. *)
Definition page_table (url : string) : option DataFrame :=
  match read_html url with
  | Return (d :: ds) => Some (fold_left bind_columns ds d)
  | _ => None
  end.

(** The frame the weekly loop collects for a page: the page's table with
    its [year] and [season_type] columns. *)
Definition weekly_frame (p : scalar * scalar * scalar) : DataFrame :=
  match p with
  | (season_id, year, week) =>
      match page_table (weekly_url year season_id week) with
      | Some d =>
          set_column "season_type" (season_label season_id)
            (set_column "year" year d)
      | None => []
      end
  end.

(** A page the weekly loop can collect as it stands: it has a table, and the
    table does not carry [season_type] on more than one column. *)
Definition page_read (p : scalar * scalar * scalar) : Prop :=
  match page_table (page_url p) with
  | Some d => single_label "season_type" d = true
  | None => False
  end.

(** One turn of the innermost weekly loop on a triple that passed the
    guard. *)
Definition weekly_turn (p : scalar * scalar * scalar) : M locals unit :=
  match p with (season_id, year, week) => weekly_page season_id year week end.

(** The locals after the pages [pages] were collected, and the reads that
    collecting them made. *)
Definition collected (st : locals) (pages : list (scalar * scalar * scalar))
  : locals :=
  {| loc_df := loc_df st ++ map weekly_frame pages;
     loc_out := loc_out st |}.

Definition fetches (pages : list (scalar * scalar * scalar)) : list event :=
  map (fun p => Fetch (page_url p)) pages.

(** A weekly load as a function of the pages its loop is to read. *)
Definition load_weekly_pages (pages : list (scalar * scalar * scalar))
  : outcome loaded * list event :=
  match for_each pages weekly_turn no_locals with
  | (o, st, t) => weekly_end o (loc_df st) t
  end.

End Loader.

(** The rows of a weekly result carry a year and a season name. *)
Definition row_tagged (year : scalar) (r : row) : Prop :=
  lookup "year" r = Some year /\
  (lookup "season_type" r = Some (SStr "regular")
   \/ lookup "season_type" r = Some (SStr "postseason")).

(** ** Reading a run *)

Definition outcome_of {S A} (r : outcome A * S * list event) : outcome A := fst (fst r).
Definition state_of {S A} (r : outcome A * S * list event) : S := snd (fst r).
Definition trace_of {S A} (r : outcome A * S * list event) : list event := snd r.

Definition is_print (e : event) : Prop := exists msg, e = Print msg.

(** The season-type string as [__init__] stores it. *)
Definition normalized (raw : string) : string := strip (lower raw).

(** The season codes [load_qbr] stores in the object, and what computing
    them prints. *)
Definition season_codes (q : Qbr) : pyval :=
  match outcome_of (convert_season_identifiers (season_type q) q) with
  | Return v => v
  | Raise _ => PNone
  end.

Definition season_trace (q : Qbr) : list event :=
  trace_of (convert_season_identifiers (season_type q) q).

(** The object as [load_qbr] leaves it. *)
Definition normalised_object (q : Qbr) : Qbr :=
  {| years := convert_to_list (years q);
     weeks := convert_to_list (weeks q);
     season_type := season_codes q;
     stat_type := stat_type q |}.

(** ** Sample pages *)

Definition sample_page : list DataFrame :=
  [ [[("NAME", SStr "P. Mahomes")]; [("NAME", SStr "J. Allen")]];
    [[("QBR", SInt 82)]; [("QBR", SInt 76)]] ].

Definition every_page (url : string) : outcome (list DataFrame) :=
  Return sample_page.

Definition no_page (url : string) : outcome (list DataFrame) :=
  Raise ValueError.

Definition week1_url : string := weekly_url (SInt 2020) (SInt 2) (SInt 1).
Definition week2_url : string := weekly_url (SInt 2020) (SInt 2) (SInt 2).

(** The same pages as [every_page], written by cases. *)
Definition every_page_by_cases (url : string) : outcome (list DataFrame) :=
  if String.eqb url week1_url then Return sample_page else every_page url.

(** Week 1 of 2020 fails with [e], every other page has its tables. *)
Definition week1_raises (e : exn) (url : string) : outcome (list DataFrame) :=
  if String.eqb url week1_url then Raise e else Return sample_page.

(** [Qbr(years=2020, weeks=1)], and the same with an unknown stat type. *)
Definition sample_request : Qbr :=
  init (PScalar (SInt 2020)) (PScalar (SInt 1)) "regular" "weekly".

Definition sample_request_both : Qbr :=
  init (PScalar (SInt 2020)) (PScalar (SInt 1)) "regular" "both".



Fixpoint has_slash (s : string) : bool :=
  match s with
  | EmptyString => false
  | String c s' => Ascii.eqb c "/" || has_slash s'
  end.

(** The address of week 4 of the postseason of some year is not read. *)
Definition not_postseason_week4 (e : event) : Prop :=
  forall year : scalar, e <> Fetch (weekly_url year (SInt 3) (SInt 4)).

(** ** The pages of a leaders request, listed *)

(** The (season code, year) pairs the two nested leaders loops reach, in the
    order they reach them. *)
Definition leaders_pages (season_ids years : list scalar)
  : list (scalar * scalar) :=
  flat_map (fun season_id =>
    flat_map (fun year => [(season_id, year)]) years)
    season_ids.

Definition leaders_page_url (p : scalar * scalar) : string :=
  match p with (season_id, year) => leaders_url year season_id end.

(** How a leaders load ends, from how its loop ended. *)
Definition leaders_end (o : outcome unit) (frames : list DataFrame)
           (t : list event) : outcome loaded * list event :=
  match o with
  | Return _ => (fst (bound frames), t ++ snd (bound frames))
  | Raise ValueError =>
      (fst (bound frames), t ++ Print no_tables_message :: snd (bound frames))
  | Raise e => (Raise e, t)
  end.

Definition leaders_fetches (pages : list (scalar * scalar)) : list event :=
  map (fun p => Fetch (leaders_page_url p)) pages.

(** The number of rows of a list of frames bound one after the other. *)
Definition row_count (frames : list DataFrame) : nat :=
  list_sum (map (@List.length row) frames).

Section LeadersPages.

Variable read_html : string -> outcome (list DataFrame).

(** The frame the leaders loop collects for a page: the page's table with
    its [year] column. *)
Definition leaders_frame (p : scalar * scalar) : DataFrame :=
  match p with
  | (season_id, year) =>
      match page_table read_html (leaders_url year season_id) with
      | Some d => set_column "year" year d
      | None => []
      end
  end.

Definition leaders_page_read (p : scalar * scalar) : Prop :=
  page_table read_html (leaders_page_url p) <> None.

Definition leaders_turn (p : scalar * scalar) : M locals unit :=
  match p with (season_id, year) => leaders_page read_html season_id year end.

Definition leaders_collected (st : locals) (pages : list (scalar * scalar))
  : locals :=
  {| loc_df := loc_df st ++ map leaders_frame pages;
     loc_out := loc_out st |}.

End LeadersPages.

(** The number of rows of the table of a page, 0 when it has none. *)
Definition page_rows (read_html : string -> outcome (list DataFrame))
           (url : string) : nat :=
  match page_table read_html url with
  | Some d => List.length d
  | None => 0%nat
  end.

(** A page whose two tables both carry a [season_type] column. *)
Definition repeated_label_page (rows : nat) : list DataFrame :=
  [ repeat [("NAME", SStr "P. Mahomes"); ("season_type", SStr "a")] rows;
    repeat [("QBR", SInt 82); ("season_type", SStr "b")] rows ].

(** [str.swapcase] on one ASCII letter; other characters stay. *)
Definition swap_case_char (c : ascii) : ascii :=
  let n := N_of_ascii c in
  if ((65 <=? n) && (n <=? 90))%N then ascii_of_N (n + 32)
  else if ((97 <=? n) && (n <=? 122))%N then ascii_of_N (n - 32)
  else c.

(** Two strings that differ in the case of ASCII letters only. *)
Fixpoint case_variant (a b : string) : bool :=
  match a, b with
  | EmptyString, EmptyString => true
  | String x a', String y b' =>
      (Ascii.eqb x y || Ascii.eqb (swap_case_char x) y) && case_variant a' b'
  | _, _ => false
  end.



(** A string of white space only. *)
Fixpoint all_space (s : string) : bool :=
  match s with
  | EmptyString => true
  | String c s' => py_isspace c && all_space s'
  end.

(** * The year/week normaliser *)

Lemma all_int_loop_true (l : list scalar) :
  Forall (fun a => isinstance_int a = true) l -> all_int_loop l = true.
Proof.
  induction 1 as [| a l Ha _ IH]; simpl.
  - reflexivity.
  - rewrite Ha. simpl. exact IH.
Qed.

Lemma all_int_loop_false (l : list scalar) (x : scalar) :
  In x l -> isinstance_int x = false -> all_int_loop l = false.
Proof.
  induction l as [| a l IH]; simpl; intros Hin Hx.
  - contradiction.
  - destruct Hin as [-> | Hin].
    + rewrite Hx. reflexivity.
    + destruct (isinstance_int a); simpl; [apply IH; assumption | reflexivity].
Qed.

Lemma all_int_loop_Forall (l : list scalar) :
  all_int_loop l = true -> Forall (fun a => isinstance_int a = true) l.
Proof.
  induction l as [| a l IH]; simpl; intros H.
  - constructor.
  - destruct (isinstance_int a) eqn:Ha; simpl in H; [| discriminate].
    constructor; auto.
Qed.

(** What [convert_to_list] hands to the loops: nothing iterable, or a list
    of integers. *)
Lemma convert_to_list_iter (v : pyval) (l : list scalar) :
  py_iter (convert_to_list v) = Return l ->
  Forall (fun a => isinstance_int a = true) l.
Proof.
  destruct v as [a | l0]; simpl.
  - destruct (isinstance_int a) eqn:Ha; simpl; intros H.
    + injection H as <-. repeat constructor. exact Ha.
    + discriminate.
  - destruct (all_int_loop l0) eqn:Hl; simpl; intros H.
    + injection H as <-. apply all_int_loop_Forall. exact Hl.
    + discriminate.
Qed.

(** C5.  An integer becomes the one-element list holding it, and a list of
    integers comes back as it is: a list of integers of the same length and
    in the same order as the input. *)
Theorem convert_to_list_integers :
  (forall a : scalar,
      isinstance_int a = true -> convert_to_list (PScalar a) = PList [a]) /\
  (forall l : list scalar,
      Forall (fun a => isinstance_int a = true) l ->
      exists out, convert_to_list (PList l) = PList out /\
                  List.length out = List.length l /\
                  (forall i, nth_error out i = nth_error l i) /\
                  Forall (fun a => isinstance_int a = true) out).
Proof.
  split.
  - intros a Ha. unfold convert_to_list. rewrite Ha. reflexivity.
  - intros l Hl.
    assert (E : convert_to_list (PList l) = PList l).
    { unfold convert_to_list. rewrite (all_int_loop_true l Hl). reflexivity. }
    exists l. repeat split; auto.
Qed.

Lemma convert_to_list_integers_witness :
  convert_to_list (PScalar (SInt 2020)) = PList [SInt 2020] /\
  exists out, convert_to_list (PList [SInt 2019; SInt 2020]) = PList out /\
              List.length out = 2%nat /\
              (forall i, nth_error out i = nth_error [SInt 2019; SInt 2020] i) /\
              Forall (fun a => isinstance_int a = true) out.
Proof.
  split.
  - apply (proj1 convert_to_list_integers). reflexivity.
  - apply (proj2 convert_to_list_integers [SInt 2019; SInt 2020]).
    repeat constructor.
Defined.

(** C6.  A list with a non-integer element at any position, and a value that
    is neither an integer nor a list, both give [None], never a list. *)
Theorem convert_to_list_rejects :
  (forall (l : list scalar) (x : scalar),
      In x l -> isinstance_int x = false -> convert_to_list (PList l) = PNone) /\
  (forall a : scalar,
      isinstance_int a = false -> convert_to_list (PScalar a) = PNone).
Proof.
  split.
  - intros l x Hin Hx. unfold convert_to_list.
    rewrite (all_int_loop_false l x Hin Hx). reflexivity.
  - intros a Ha. unfold convert_to_list. rewrite Ha. reflexivity.
Qed.

Lemma convert_to_list_rejects_witness :
  convert_to_list (PList [SInt 1; SInt 2; SStr "3"]) = PNone /\
  convert_to_list (PScalar (SStr "2020")) = PNone.
Proof.
  split.
  - apply (proj1 convert_to_list_rejects) with (x := SStr "3").
    + simpl. right. right. left. reflexivity.
    + reflexivity.
  - apply (proj2 convert_to_list_rejects). reflexivity.
Defined.

(** * Season-type normalisation *)

(** C10.  The parameter of [convert_season_identifiers] has no influence:
    on one object, any two arguments give the same run.  The object's field
    decides: with the field ['regular'] the codes are [[2]] even when
    ['postseason'] is passed. *)
Theorem convert_season_identifiers_ignores_argument :
  (forall (q : Qbr) (a b : pyval),
      convert_season_identifiers a q = convert_season_identifiers b q) /\
  (forall (q : Qbr) (a : pyval),
      season_type q = PScalar (SStr "regular") ->
      outcome_of (convert_season_identifiers a q) = Return (PList [SInt 2])).
Proof.
  split.
  - intros q a b. reflexivity.
  - intros q a Hq. unfold convert_season_identifiers, bind, get, outcome_of.
    rewrite Hq. reflexivity.
Qed.

Lemma convert_season_identifiers_ignores_argument_witness :
  outcome_of
    (convert_season_identifiers (PScalar (SStr "postseason"))
       (init (PScalar (SInt 2020)) (PScalar (SInt 1)) "regular" "weekly"))
  = Return (PList [SInt 2]).
Proof.
  apply (proj2 convert_season_identifiers_ignores_argument). reflexivity.
Defined.

(** * Loops in the method monad *)

Section LoopFacts.

Context {S X : Type}.

Lemma for_each_app (l1 l2 : list X) (body : X -> M S unit) (s : S) :
  for_each (l1 ++ l2) body s = (for_each l1 body ;; for_each l2 body) s.
Proof.
  revert s. induction l1 as [| x l1 IH]; intros s; simpl.
  - unfold bind, ret. destruct (for_each l2 body s) as [[o s2] t2]. reflexivity.
  - unfold bind in *. destruct (body x s) as [[[[] | e] s1] t1]; [| reflexivity].
    rewrite IH.
    destruct (for_each l1 body s1) as [[[[] | e1] s2] t2]; [| reflexivity].
    destruct (for_each l2 body s2) as [[o3 s3] t3].
    rewrite app_assoc. reflexivity.
Qed.

Lemma for_each_ext (l : list X) (body body' : X -> M S unit) :
  (forall x s, In x l -> body x s = body' x s) ->
  forall s, for_each l body s = for_each l body' s.
Proof.
  induction l as [| x l IH]; intros H s; simpl.
  - reflexivity.
  - unfold bind. rewrite (H x s (or_introl eq_refl)).
    destruct (body' x s) as [[[[] | e] s1] t1]; [| reflexivity].
    rewrite IH; [reflexivity |].
    intros y s' Hy. apply H. right. exact Hy.
Qed.

(** A loop keeps what every turn keeps: an invariant [I] of the state and
    a property [P] of each event, whether the loop ends or raises. *)
Lemma for_each_keeps (I : S -> Prop) (P : event -> Prop)
      (l : list X) (body : X -> M S unit) :
  (forall x s, In x l -> I s ->
               I (state_of (body x s)) /\ Forall P (trace_of (body x s))) ->
  forall s, I s ->
            I (state_of (for_each l body s)) /\
            Forall P (trace_of (for_each l body s)).
Proof.
  induction l as [| x l IH]; intros H s Hs; simpl.
  - split; [exact Hs | constructor].
  - destruct (H x s (or_introl eq_refl) Hs) as [H1 H2].
    unfold bind. destruct (body x s) as [[[[] | e] s1] t1]; simpl in *.
    + destruct (IH (fun y s' Hy => H y s' (or_intror Hy)) s1 H1) as [H3 H4].
      destruct (for_each l body s1) as [[o2 s2] t2]; simpl in *.
      split; [exact H3 | apply Forall_app; split; assumption].
    + split; assumption.
Qed.

End LoopFacts.

Lemma for_each_flat_map {S X Y : Type} (f : X -> list Y) (l : list X)
      (body : Y -> M S unit) (s : S) :
  for_each (flat_map f l) body s = for_each l (fun x => for_each (f x) body) s.
Proof.
  revert s. induction l as [| x l IH]; intros s.
  - reflexivity.
  - change (flat_map f (x :: l)) with (f x ++ flat_map f l).
    rewrite for_each_app. simpl. unfold bind.
    destruct (for_each (f x) body s) as [[[[] | e] s1] t1]; [| reflexivity].
    rewrite IH. reflexivity.
Qed.

Lemma for_in_list {S} (l : list scalar) (body : scalar -> M S unit) (s : S) :
  for_in (PList l) body s = for_each l body s.
Proof.
  unfold for_in, bind, lift. simpl.
  destruct (for_each l body s) as [[o s2] t2]. reflexivity.
Qed.

Lemma for_in_keeps {S} (I : S -> Prop) (P : event -> Prop)
      (v : pyval) (body : scalar -> M S unit) :
  (forall l x s, py_iter v = Return l -> In x l -> I s ->
                 I (state_of (body x s)) /\ Forall P (trace_of (body x s))) ->
  forall s, I s ->
            I (state_of (for_in v body s)) /\ Forall P (trace_of (for_in v body s)).
Proof.
  intros H s Hs. unfold for_in, bind, lift.
  destruct (py_iter v) as [l | e] eqn:Hv.
  - destruct (for_each_keeps I P l body (fun x s' => H l x s' eq_refl) s Hs)
      as [H1 H2].
    destruct (for_each l body s) as [[o s2] t2]; simpl in *.
    split; assumption.
  - simpl. split; [exact Hs | constructor].
Qed.

(** * Rows and columns *)

Lemma lookup_set_cell (name : string) (v : scalar) (r : row) :
  lookup name (set_cell name v r) = Some v.
Proof.
  unfold set_cell. destruct (has_label name r) eqn:Hl.
  - induction r as [| [k x] r IH]; simpl in *; [discriminate |].
    destruct (String.eqb k name) eqn:Hk; simpl.
    + rewrite Hk. reflexivity.
    + rewrite Hk. apply IH. exact Hl.
  - induction r as [| [k x] r IH]; simpl in *.
    + rewrite String.eqb_refl. reflexivity.
    + destruct (String.eqb k name) eqn:Hk; simpl in *; [discriminate |].
      apply IH. exact Hl.
Qed.

Lemma has_label_set_cell (name : string) (v : scalar) (r : row) :
  has_label name (set_cell name v r) = true.
Proof.
  unfold set_cell. destruct (has_label name r) eqn:Hl.
  - unfold has_label in *. induction r as [| [k x] r IH]; simpl in *; [discriminate |].
    destruct (String.eqb k name) eqn:Hk; simpl.
    + rewrite Hk. reflexivity.
    + rewrite Hk. simpl. apply IH. exact Hl.
  - unfold has_label. rewrite existsb_app. simpl.
    rewrite String.eqb_refl. apply orb_true_r.
Qed.

Lemma set_cell_absent (name : string) (v : scalar) (r : row) :
  has_label name r = false ->
  map (fun kv : string * scalar =>
         if String.eqb (fst kv) name then (fst kv, v) else kv) r = r.
Proof.
  unfold has_label. induction r as [| [k x] r IH]; simpl; intros H.
  - reflexivity.
  - destruct (String.eqb k name); simpl in H; [discriminate |].
    rewrite IH by exact H. reflexivity.
Qed.

Lemma set_cell_twice (name : string) (v v' : scalar) (r : row) :
  set_cell name v' (set_cell name v r) = set_cell name v' r.
Proof.
  unfold set_cell at 1. rewrite has_label_set_cell.
  unfold set_cell. destruct (has_label name r) eqn:Hl.
  - rewrite map_map. apply map_ext. intros [k x]. simpl.
    destruct (String.eqb k name) eqn:Hk; simpl; rewrite Hk; reflexivity.
  - rewrite map_app. simpl. rewrite String.eqb_refl.
    rewrite set_cell_absent by exact Hl. reflexivity.
Qed.

Lemma column_cells_set_column (name : string) (v : scalar) (d : DataFrame) :
  column_cells name (set_column name v d) = Return (map (fun _ => v) d).
Proof.
  induction d as [| r d IH].
  - reflexivity.
  - change (set_column name v (r :: d))
      with (set_cell name v r :: set_column name v d).
    cbn [column_cells]. rewrite lookup_set_cell, IH. reflexivity.
Qed.

Lemma label_count_absent (name : string) (r : row) :
  has_label name r = false -> label_count name r = 0%nat.
Proof.
  unfold has_label, label_count. induction r as [| [k x] r IH]; simpl.
  - reflexivity.
  - destruct (String.eqb k name); simpl; [discriminate | exact IH].
Qed.

Lemma label_count_present (name : string) (r : row) :
  has_label name r = true -> (1 <= label_count name r)%nat.
Proof.
  unfold has_label, label_count. induction r as [| [k x] r IH]; simpl.
  - discriminate.
  - destruct (String.eqb k name); simpl; intros H; [lia | apply IH; exact H].
Qed.

(** [df[name] = v] keeps the columns there are and makes one when there is
    none. *)
Lemma label_count_set_cell (name : string) (v : scalar) (r : row) :
  label_count name (set_cell name v r) = Nat.max 1 (label_count name r).
Proof.
  unfold set_cell. destruct (has_label name r) eqn:Hl.
  - pose proof (label_count_present name r Hl) as Hge.
    assert (E : label_count name
                  (map (fun kv : string * scalar =>
                          if String.eqb (fst kv) name then (fst kv, v) else kv) r)
                = label_count name r).
    { unfold label_count. clear Hl Hge.
      induction r as [| [k x] r IH]; simpl; [reflexivity |].
      destruct (String.eqb k name) eqn:Hk; simpl; rewrite Hk; simpl;
        rewrite IH; reflexivity. }
    rewrite E. lia.
  - rewrite (label_count_absent name r Hl).
    unfold label_count. rewrite filter_app, length_app. simpl.
    rewrite String.eqb_refl. simpl.
    fold (label_count name r). rewrite (label_count_absent name r Hl).
    reflexivity.
Qed.

Lemma label_count_set_cell_other (name other : string) (v : scalar) (r : row) :
  String.eqb name other = false ->
  label_count other (set_cell name v r) = label_count other r.
Proof.
  intros Hne. unfold set_cell, label_count. destruct (has_label name r).
  - induction r as [| [k x] r IH]; simpl; [reflexivity |].
    destruct (String.eqb k name) eqn:Hk; simpl.
    + apply String.eqb_eq in Hk. subst k. rewrite Hne. exact IH.
    + destruct (String.eqb k other); simpl; rewrite IH; reflexivity.
  - rewrite filter_app, length_app. simpl. rewrite Hne. simpl. lia.
Qed.

Lemma single_label_set_column_other (name other : string) (v : scalar)
      (d : DataFrame) :
  String.eqb name other = false ->
  single_label other (set_column name v d) = single_label other d.
Proof.
  intros Hne. unfold single_label, set_column.
  induction d as [| r d IH]; simpl; [reflexivity |].
  rewrite (label_count_set_cell_other name other v r Hne), IH. reflexivity.
Qed.

(** After [df[name] = v] the label is on one column exactly when it was on
    one at most before. *)
Lemma column_count_set_column (name : string) (v : scalar) (d : DataFrame) :
  (2 <=? column_count name (set_column name v d))%nat
  = negb (single_label name d).
Proof.
  unfold column_count, single_label, set_column.
  induction d as [| r d IH]; [reflexivity |].
  cbn [map fold_right forallb]. rewrite label_count_set_cell.
  set (k := fold_right (fun r0 k0 => Nat.max (label_count name r0) k0) 0%nat
              (map (set_cell name v) d)) in *.
  set (c := label_count name r).
  destruct (Nat.leb_spec c 1) as [Hr | Hr]; cbn [andb negb].
  - rewrite <- IH.
    destruct (Nat.leb_spec 2 (Nat.max (Nat.max 1 c) k));
      destruct (Nat.leb_spec 2 k); try reflexivity; lia.
  - apply Nat.leb_le. lia.
Qed.

Lemma get_column_set_column (name : string) (v : scalar) (d : DataFrame) :
  single_label name d = true ->
  get_column name (set_column name v d) = Return (map (fun _ => v) d).
Proof.
  intros H. unfold get_column.
  rewrite column_count_set_column, H. simpl. apply column_cells_set_column.
Qed.


Lemma set_column_list_const (name : string) (v v' : scalar) (d : DataFrame) :
  set_column_list name (map (fun _ => v') d) (set_column name v d)
  = Return (set_column name v' d).
Proof.
  induction d as [| r d IH].
  - reflexivity.
  - change (set_column name v (r :: d))
      with (set_cell name v r :: set_column name v d).
    cbn [set_column_list map]. rewrite IH, set_cell_twice. reflexivity.
Qed.

Lemma lookup_set_cell_other (name other : string) (v : scalar) (r : row) :
  String.eqb name other = false ->
  lookup other (set_cell name v r) = lookup other r.
Proof.
  intros Hne. unfold set_cell. destruct (has_label name r).
  - induction r as [| [k x] r IH]; simpl; [reflexivity |].
    destruct (String.eqb k name) eqn:Hk; simpl.
    + apply String.eqb_eq in Hk. subst k. rewrite Hne. exact IH.
    + destruct (String.eqb k other); [reflexivity | exact IH].
  - induction r as [| [k x] r IH]; simpl.
    + rewrite Hne. reflexivity.
    + destruct (String.eqb k other); [reflexivity | exact IH].
Qed.

Lemma season_label_cases (x : scalar) :
  season_label x = SStr "regular" \/ season_label x = SStr "postseason".
Proof.
  unfold season_label. destruct (py_eq_int x 2); [left | right]; reflexivity.
Qed.

Lemma tagged_rows (year season_id : scalar) (d : DataFrame) :
  Forall (row_tagged year)
         (set_column "season_type" (season_label season_id)
            (set_column "year" year d)).
Proof.
  unfold set_column. rewrite map_map. apply Forall_forall.
  intros r Hr. apply in_map_iff in Hr. destruct Hr as [r0 [<- _]].
  split.
  - rewrite lookup_set_cell_other by reflexivity. apply lookup_set_cell.
  - rewrite lookup_set_cell.
    destruct (season_label_cases season_id) as [-> | ->]; [left | right]; reflexivity.
Qed.

(** * Lines 123 and 124 *)



(** With [season_type] on one column at most, the two lines name the season
    of the code in every row. *)
Lemma tag_season_single (season_id : scalar) (d : DataFrame) :
  single_label "season_type" d = true ->
  tag_season season_id d
  = Return (set_column "season_type" (season_label season_id) d).
Proof.
  intros H. unfold tag_season.
  rewrite (get_column_set_column "season_type" season_id d H), map_map.
  apply set_column_list_const.
Qed.



(** * The weekly loop, page by page *)

Lemma bind_ret_tt {S} (m : M S unit) (s : S) : (m ;; ret tt) s = m s.
Proof.
  unfold bind, ret. destruct (m s) as [[[[] | e] s1] t1]; [| reflexivity].
  rewrite app_nil_r. reflexivity.
Qed.

Section LoaderFacts.

Variable read_html : string -> outcome (list DataFrame).

(** A turn reads its page, and nothing else; it collects the frame that
    lines 123 and 124 make of the page's table with its year, and raises
    when the read, the binding of the tables or these lines raise. *)
Lemma weekly_page_run (season_id year week : scalar) (st : locals) :
  weekly_page read_html season_id year week st
  = match read_html (weekly_url year season_id week) with
    | Return (d :: ds) =>
        match tag_season season_id
                (set_column "year" year (fold_left bind_columns ds d)) with
        | Return f =>
            (Return tt, push_frame f st, [Fetch (weekly_url year season_id week)])
        | Raise e => (Raise e, st, [Fetch (weekly_url year season_id week)])
        end
    | Return [] => (Raise ValueError, st, [Fetch (weekly_url year season_id week)])
    | Raise e => (Raise e, st, [Fetch (weekly_url year season_id week)])
    end.
Proof.
  unfold weekly_page, tag_season, bind, fetch, lift.
  destruct (read_html (weekly_url year season_id week)) as [[| d ds] | e];
    try reflexivity.
  cbn [concat_columns].
  destruct (get_column "season_type"
              (set_column "season_type" season_id
                 (set_column "year" year (fold_left bind_columns ds d))))
    as [col | e]; [| reflexivity].
  destruct (set_column_list "season_type" (map season_label col)
              (set_column "season_type" season_id
                 (set_column "year" year (fold_left bind_columns ds d))))
    as [f | e]; reflexivity.
Qed.

Lemma weekly_page_trace (season_id year week : scalar) (st : locals) :
  trace_of (weekly_page read_html season_id year week st)
  = [Fetch (weekly_url year season_id week)].
Proof.
  rewrite weekly_page_run.
  destruct (read_html (weekly_url year season_id week)) as [[| d ds] | e];
    try reflexivity.
  destruct (tag_season season_id _); reflexivity.
Qed.

Lemma weekly_loop_pages (season_ids years weeks : list scalar) (st : locals) :
  weekly_loop read_html (PList years) (PList weeks) (PList season_ids) st
  = for_each (weekly_pages season_ids years weeks) (weekly_turn read_html) st.
Proof.
  unfold weekly_loop, weekly_pages.
  rewrite for_in_list, for_each_flat_map.
  apply for_each_ext. intros season_id s1 _.
  rewrite for_in_list, for_each_flat_map.
  apply for_each_ext. intros year s2 _.
  rewrite for_in_list, for_each_flat_map.
  apply for_each_ext. intros week s3 _.
  destruct (skipped season_id week); simpl.
  - reflexivity.
  - apply eq_sym, (bind_ret_tt (weekly_page read_html season_id year week)).
Qed.

Lemma weekly_turn_read (p : scalar * scalar * scalar) (st : locals) :
  page_read read_html p ->
  weekly_turn read_html p st
  = (Return tt, push_frame (weekly_frame read_html p) st, [Fetch (page_url p)]).
Proof.
  destruct p as [[season_id year] week].
  unfold page_read, weekly_frame, page_table. simpl.
  intros H. rewrite weekly_page_run.
  destruct (read_html (weekly_url year season_id week)) as [[| d ds] | e];
    try contradiction.
  rewrite tag_season_single.
  - reflexivity.
  - rewrite single_label_set_column_other by reflexivity. exact H.
Qed.

Lemma weekly_turn_raise (p : scalar * scalar * scalar) (e : exn) (st : locals) :
  read_html (page_url p) = Raise e ->
  weekly_turn read_html p st = (Raise e, st, [Fetch (page_url p)]).
Proof.
  destruct p as [[season_id year] week]. simpl. intros H.
  rewrite weekly_page_run, H. reflexivity.
Qed.

Lemma collected_nil (st : locals) : collected read_html st [] = st.
Proof.
  unfold collected. simpl. rewrite app_nil_r. destruct st. reflexivity.
Qed.

Lemma collected_cons (st : locals) p pages :
  collected read_html (push_frame (weekly_frame read_html p) st) pages
  = collected read_html st (p :: pages).
Proof.
  unfold collected, push_frame. simpl. rewrite <- app_assoc. reflexivity.
Qed.

(** Pages that all read well are all collected, in order. *)
Lemma pages_all_read (pages : list (scalar * scalar * scalar)) (st : locals) :
  Forall (page_read read_html) pages ->
  for_each pages (weekly_turn read_html) st
  = (Return tt, collected read_html st pages, fetches pages).
Proof.
  intros H. revert st. induction H as [| p pages Hp _ IH]; intros st.
  - simpl. rewrite collected_nil. reflexivity.
  - simpl. unfold bind. rewrite (weekly_turn_read p st Hp), IH, collected_cons.
    reflexivity.
Qed.

(** The first page that raises ends the loop: the pages before it are
    collected, the pages after it are not read. *)
Lemma pages_stop_at_raise (pre post : list (scalar * scalar * scalar))
      (p : scalar * scalar * scalar) (e : exn) (st : locals) :
  Forall (page_read read_html) pre ->
  read_html (page_url p) = Raise e ->
  for_each (pre ++ p :: post) (weekly_turn read_html) st
  = (Raise e, collected read_html st pre, fetches pre ++ [Fetch (page_url p)]).
Proof.
  intros Hpre Hp. rewrite for_each_app. unfold bind.
  rewrite (pages_all_read pre st Hpre). simpl. unfold bind.
  rewrite (weekly_turn_raise p e _ Hp). reflexivity.
Qed.

Lemma load_weekly_qbr_end (years weeks season_type : pyval)
      (o : outcome unit) (st : locals) (t : list event) :
  weekly_loop read_html years weeks season_type no_locals = (o, st, t) ->
  load_weekly_qbr read_html years weeks season_type = weekly_end o (loc_df st) t.
Proof.
  intros H.
  unfold load_weekly_qbr, load_weekly_qbr_body, bind_collected, return_out,
    set_out, bind, try_except, get, modify, lift, print, ret, raise.
  rewrite H. destruct st as [frames out].
  destruct o as [[] | []]; destruct frames as [| d frames]; simpl;
    rewrite ?app_nil_r, <- ?app_assoc; reflexivity.
Qed.

End LoaderFacts.

(** * The dispatcher *)

Lemma convert_season_identifiers_run (a : pyval) (q : Qbr) :
  convert_season_identifiers a q = (Return (season_codes q), q, season_trace q).
Proof.
  unfold season_codes, season_trace, convert_season_identifiers,
    bind, get, ret, print, outcome_of, trace_of.
  simpl.
  destruct (py_eq_str (season_type q) "regular"); [reflexivity |].
  destruct (py_eq_str (season_type q) "postseason"); [reflexivity |].
  destruct (py_eq_str (season_type q) "all"); reflexivity.
Qed.

(** The four ends of the season-type conversion. *)
Lemma season_codes_cases (q : Qbr) :
  (season_codes q = PList [SInt 2] /\ season_trace q = [])
  \/ (season_codes q = PList [SInt 3] /\ season_trace q = [])
  \/ (season_codes q = PList [SInt 2; SInt 3] /\ season_trace q = [])
  \/ (season_codes q = PNone /\ season_trace q = [Print season_type_message]).
Proof.
  unfold season_codes, season_trace, convert_season_identifiers,
    bind, get, ret, print, outcome_of, trace_of.
  simpl.
  destruct (py_eq_str (season_type q) "regular"); [left; split; reflexivity |].
  destruct (py_eq_str (season_type q) "postseason");
    [right; left; split; reflexivity |].
  destruct (py_eq_str (season_type q) "all");
    [right; right; left; split; reflexivity |].
  right; right; right; split; reflexivity.
Qed.

Section DispatcherFacts.

Variable read_html : string -> outcome (list DataFrame).

(** [load_qbr] normalises the object in place, then dispatches on the stat
    type; the third branch leaves [final_df] unbound. *)
Lemma load_qbr_run (q : Qbr) :
  load_qbr read_html q
  = let q' := normalised_object q in
    if String.eqb (stat_type q) "weekly" then
      (fst (load_weekly_qbr read_html (years q') (weeks q') (season_type q')),
       q',
       season_trace q
       ++ snd (load_weekly_qbr read_html (years q') (weeks q') (season_type q')))
    else if String.eqb (stat_type q) "leaders" then
      (fst (load_season_leaders_qbr read_html (years q') (season_type q')),
       q',
       season_trace q
       ++ snd (load_season_leaders_qbr read_html (years q') (season_type q')))
    else
      (Raise UnboundLocalError, q', season_trace q ++ [Print stat_type_message]).
Proof.
  unfold load_qbr. unfold bind at 1. unfold get at 1.
  unfold bind at 1. rewrite convert_season_identifiers_run.
  unfold bind, get, modify, call, ret, print, raise, normalised_object,
    set_season_type, set_years, set_weeks.
  simpl.
  destruct (String.eqb (stat_type q) "weekly").
  - destruct (load_weekly_qbr read_html _ _ _) as [[r | e] t]; simpl;
      rewrite ?app_nil_r; reflexivity.
  - destruct (String.eqb (stat_type q) "leaders").
    + destruct (load_season_leaders_qbr read_html _ _) as [[r | e] t]; simpl;
        rewrite ?app_nil_r; reflexivity.
    + simpl. reflexivity.
Qed.

End DispatcherFacts.

Section DispatcherClaims.

Variable read_html : string -> outcome (list DataFrame).

Lemma weekly_without_codes (yrs wks : pyval) :
  load_weekly_qbr read_html yrs wks PNone
  = (Return EmptyList, [Print parameters_message; Print no_data_message]).
Proof.
  apply (load_weekly_qbr_end read_html yrs wks PNone
           (Raise TypeError) no_locals []).
  reflexivity.
Qed.

Lemma leaders_without_codes (yrs : pyval) :
  load_season_leaders_qbr read_html yrs PNone = (Raise TypeError, []).
Proof. reflexivity. Qed.

(** Without season codes no page is read, whatever the stat type. *)
Lemma load_qbr_without_codes (q : Qbr) :
  season_codes q = PNone ->
  Forall is_print (trace_of (load_qbr read_html q)).
Proof.
  intros Hc. rewrite load_qbr_run. cbv zeta.
  assert (Hs : Forall is_print (season_trace q)).
  { destruct (season_codes_cases q) as [[_ ->] | [[_ ->] | [[_ ->] | [_ ->]]]];
      repeat constructor. exists season_type_message. reflexivity. }
  unfold normalised_object. cbn [years weeks season_type].
  rewrite Hc.
  destruct (String.eqb (stat_type q) "weekly").
  - rewrite weekly_without_codes. unfold trace_of. cbn [snd].
    apply Forall_app. split; [exact Hs |].
    repeat constructor; eexists; reflexivity.
  - destruct (String.eqb (stat_type q) "leaders").
    + rewrite leaders_without_codes. unfold trace_of. cbn [snd].
      rewrite app_nil_r. exact Hs.
    + unfold trace_of. cbn [snd]. apply Forall_app. split; [exact Hs |].
      repeat constructor. eexists; reflexivity.
Qed.

End DispatcherClaims.

(** C4.  Season-type normalisation never raises and depends only on the
    lowered, stripped string: ['regular'] gives [[2]], ['postseason'] gives
    [[3]], ['all'] gives [[2, 3]] in that order, and any other string prints
    the diagnostic and gives no codes, after which neither loop makes a
    turn: no page is read. *)
Theorem season_type_normalisation
        (yrs wks : pyval) (raw stat : string) (arg : pyval) :
  let q := init yrs wks raw stat in
  let n := normalized raw in
  (n = "regular" ->
   convert_season_identifiers arg q = (Return (PList [SInt 2]), q, [])) /\
  (n = "postseason" ->
   convert_season_identifiers arg q = (Return (PList [SInt 3]), q, [])) /\
  (n = "all" ->
   convert_season_identifiers arg q = (Return (PList [SInt 2; SInt 3]), q, [])) /\
  (n <> "regular" -> n <> "postseason" -> n <> "all" ->
   convert_season_identifiers arg q
   = (Return PNone, q, [Print season_type_message]) /\
   forall read_html,
     load_weekly_qbr read_html yrs wks PNone
     = (Return EmptyList, [Print parameters_message; Print no_data_message]) /\
     load_season_leaders_qbr read_html yrs PNone = (Raise TypeError, []) /\
     Forall is_print (trace_of (load_qbr read_html q))).
Proof.
  intros q n.
  assert (Hrun : forall v t,
             (if String.eqb n "regular" then (PList [SInt 2], [])
              else if String.eqb n "postseason" then (PList [SInt 3], [])
              else if String.eqb n "all" then (PList [SInt 2; SInt 3], [])
              else (PNone, [Print season_type_message])) = (v, t) ->
             convert_season_identifiers arg q = (Return v, q, t)).
  { intros v t. unfold convert_season_identifiers, bind, get, ret, print.
    subst q n. unfold init, normalized. simpl.
    destruct (String.eqb (strip (lower raw)) "regular").
    { intros [= <- <-]. reflexivity. }
    destruct (String.eqb (strip (lower raw)) "postseason").
    { intros [= <- <-]. reflexivity. }
    destruct (String.eqb (strip (lower raw)) "all").
    { intros [= <- <-]. reflexivity. }
    intros [= <- <-]. reflexivity. }
  split; [| split; [| split]].
  - intros Hn. apply Hrun. rewrite Hn. reflexivity.
  - intros Hn. apply Hrun. rewrite Hn. reflexivity.
  - intros Hn. apply Hrun. rewrite Hn. reflexivity.
  - intros H1 H2 H3. apply String.eqb_neq in H1, H2, H3.
    assert (Hnone : convert_season_identifiers arg q
                    = (Return PNone, q, [Print season_type_message])).
    { apply Hrun. rewrite H1, H2, H3. reflexivity. }
    split; [exact Hnone |].
    intros read_html. split; [| split].
    + apply weekly_without_codes.
    + apply leaders_without_codes.
    + apply load_qbr_without_codes.
      pose proof (convert_season_identifiers_run arg q) as E.
      rewrite Hnone in E. injection E as E1 _. symmetry. exact E1.
Qed.

Lemma season_type_normalisation_witness :
  convert_season_identifiers PNone
    (init (PScalar (SInt 2020)) (PScalar (SInt 1)) "  Regular " "weekly")
  = (Return (PList [SInt 2]),
     init (PScalar (SInt 2020)) (PScalar (SInt 1)) "  Regular " "weekly", [])
  /\ convert_season_identifiers PNone
       (init (PScalar (SInt 2020)) (PScalar (SInt 1)) "POSTSEASON" "weekly")
     = (Return (PList [SInt 3]),
        init (PScalar (SInt 2020)) (PScalar (SInt 1)) "POSTSEASON" "weekly", [])
  /\ convert_season_identifiers PNone
       (init (PScalar (SInt 2020)) (PScalar (SInt 1)) "All" "weekly")
     = (Return (PList [SInt 2; SInt 3]),
        init (PScalar (SInt 2020)) (PScalar (SInt 1)) "All" "weekly", [])
  /\ convert_season_identifiers PNone
       (init (PScalar (SInt 2020)) (PScalar (SInt 1)) "playoffs" "weekly")
     = (Return PNone,
        init (PScalar (SInt 2020)) (PScalar (SInt 1)) "playoffs" "weekly",
        [Print season_type_message]).
Proof.
  split; [| split; [| split]].
  - apply (season_type_normalisation
             (PScalar (SInt 2020)) (PScalar (SInt 1)) "  Regular " "weekly" PNone).
    reflexivity.
  - apply (season_type_normalisation
             (PScalar (SInt 2020)) (PScalar (SInt 1)) "POSTSEASON" "weekly" PNone).
    reflexivity.
  - apply (season_type_normalisation
             (PScalar (SInt 2020)) (PScalar (SInt 1)) "All" "weekly" PNone).
    reflexivity.
  - apply (season_type_normalisation
             (PScalar (SInt 2020)) (PScalar (SInt 1)) "playoffs" "weekly" PNone);
      discriminate.
Defined.

(** C1 (where the code departs from the claim).  With a stat type that is
    neither ['weekly'] nor ['leaders'], [load_qbr] prints its diagnostic and
    then raises [UnboundLocalError] at [return final_df]: the object is
    normalised, nothing is returned. *)
Theorem load_qbr_unknown_stat_type
        (read_html : string -> outcome (list DataFrame)) (q : Qbr) :
  stat_type q <> "weekly" ->
  stat_type q <> "leaders" ->
  load_qbr read_html q
  = (Raise UnboundLocalError, normalised_object q,
     season_trace q ++ [Print stat_type_message]).
Proof.
  intros Hw Hl. rewrite load_qbr_run. cbv zeta.
  apply String.eqb_neq in Hw, Hl. rewrite Hw, Hl. reflexivity.
Qed.

Lemma load_qbr_unknown_stat_type_witness :
  load_qbr every_page sample_request_both
  = (Raise UnboundLocalError,
     {| years := PList [SInt 2020]; weeks := PList [SInt 1];
        season_type := PList [SInt 2]; stat_type := "both" |},
     [Print stat_type_message]).
Proof.
  apply (load_qbr_unknown_stat_type every_page sample_request_both); discriminate.
Defined.

(** * Failures inside the weekly loop *)

(** C8 (where the code departs from the claim).  When the first page the
    weekly loop reads raises [ValueError], which is what a page without
    tables does, no handler of [load_weekly_qbr] takes it: the load raises
    with nothing collected, nothing printed and nothing returned. *)
Theorem weekly_value_error_escapes
        (read_html : string -> outcome (list DataFrame))
        (season_ids yrs wks : list scalar)
        (p : scalar * scalar * scalar) (post : list (scalar * scalar * scalar)) :
  weekly_pages season_ids yrs wks = p :: post ->
  read_html (page_url p) = Raise ValueError ->
  load_weekly_qbr read_html (PList yrs) (PList wks) (PList season_ids)
  = (Raise ValueError, [Fetch (page_url p)]).
Proof.
  intros Hpages Hp.
  rewrite (load_weekly_qbr_end read_html _ _ _ (Raise ValueError) no_locals
             [Fetch (page_url p)]).
  - reflexivity.
  - rewrite weekly_loop_pages, Hpages.
    change (p :: post) with ([] ++ p :: post).
    rewrite (pages_stop_at_raise read_html [] post p ValueError no_locals
               (Forall_nil _) Hp).
    rewrite collected_nil. reflexivity.
Qed.

Lemma weekly_value_error_escapes_witness :
  load_weekly_qbr no_page (PList [SInt 2020]) (PList [SInt 1]) (PList [SInt 2])
  = (Raise ValueError, [Fetch week1_url]).
Proof.
  apply (weekly_value_error_escapes no_page [SInt 2] [SInt 2020] [SInt 1]
           (SInt 2, SInt 2020, SInt 1) []); reflexivity.
Defined.

(** The same pages through the dispatcher: the weekly request raises, the
    leaders request comes back with the empty list and two diagnostics. *)
Example load_qbr_no_tables :
  load_qbr no_page sample_request
  = (Raise ValueError, normalised_object sample_request, [Fetch week1_url])
  /\ outcome_of
       (load_qbr no_page
          (init (PScalar (SInt 2020)) (PScalar (SInt 1)) "regular" "leaders"))
     = Return EmptyList
  /\ trace_of
       (load_qbr no_page
          (init (PScalar (SInt 2020)) (PScalar (SInt 1)) "regular" "leaders"))
     = [Fetch (leaders_url (SInt 2020) (SInt 2));
        Print no_tables_message; Print no_data_message].
Proof. split; [reflexivity | split; reflexivity]. Qed.

(** A leaders request whose years are not integers: the [TypeError] of the
    year loop has no handler there. *)
Example load_qbr_leaders_bad_years :
  outcome_of
    (load_qbr every_page
       (init (PScalar (SStr "2020")) (PScalar (SInt 1)) "regular" "leaders"))
  = Raise TypeError.
Proof. reflexivity. Qed.

(** What the weekly loader does, by contrast, when its loop was ended by an
    exception it handles, or ran to its end, with nothing collected. *)
Lemma weekly_end_nothing_collected (o : outcome unit) (t : list event) :
  o = Return tt \/ o = Raise ImportError \/ o = Raise TypeError ->
  fst (weekly_end o [] t) = Return EmptyList /\
  In (Print no_data_message) (snd (weekly_end o [] t)).
Proof.
  intros [-> | [-> | ->]]; simpl; split; try reflexivity;
    apply in_or_app; right; simpl; auto.
Qed.

(** The loop does not go on past a page that failed: with week 1 failing,
    week 2, whose page has its tables, is never read, whether the failure is
    the [ImportError] the loader handles or a [ValueError]. *)
Lemma weekly_loop_does_not_continue :
  week1_raises ImportError week2_url = Return sample_page
  /\ load_weekly_qbr (week1_raises ImportError)
       (PList [SInt 2020]) (PList [SInt 1; SInt 2]) (PList [SInt 2])
     = (Return EmptyList,
        [Fetch week1_url; Print weekly_import_message; Print no_data_message])
  /\ ~ In (Fetch week2_url)
         (snd (load_weekly_qbr (week1_raises ImportError)
                 (PList [SInt 2020]) (PList [SInt 1; SInt 2]) (PList [SInt 2])))
  /\ load_weekly_qbr (week1_raises ValueError)
       (PList [SInt 2020]) (PList [SInt 1; SInt 2]) (PList [SInt 2])
     = (Raise ValueError, [Fetch week1_url]).
Proof.
  split; [reflexivity |]. split; [reflexivity |]. split; [| reflexivity].
  intros H. vm_compute in H.
  destruct H as [H | [H | [H | []]]]; discriminate H.
Qed.

(** C2, amended.  An [ImportError] raised while a page is read ends the
    weekly loop with the no-data diagnostic, a [TypeError] with the parameter
    diagnostic: the pages before it are collected, bound and returned (the
    empty list and a second diagnostic when there are none), the pages after
    it are not read.  A season type, a years or a weeks value that cannot be
    iterated is such a [TypeError]. *)
Theorem weekly_loop_stops_at_first_failure
        (read_html : string -> outcome (list DataFrame)) :
  (forall (season_ids yrs wks : list scalar)
          (pre post : list (scalar * scalar * scalar))
          (p : scalar * scalar * scalar) (e : exn) (msg : string),
      weekly_pages season_ids yrs wks = pre ++ p :: post ->
      Forall (page_read read_html) pre ->
      read_html (page_url p) = Raise e ->
      (e = ImportError /\ msg = weekly_import_message)
      \/ (e = TypeError /\ msg = parameters_message) ->
      load_weekly_qbr read_html (PList yrs) (PList wks) (PList season_ids)
      = (fst (bound (map (weekly_frame read_html) pre)),
         fetches pre ++ Fetch (page_url p) :: Print msg
                 :: snd (bound (map (weekly_frame read_html) pre))))
  /\ (forall (yrs wks sty : pyval) (season_id yr : scalar) (ss ys : list scalar),
         py_iter sty = Raise TypeError
         \/ (sty = PList (season_id :: ss) /\ py_iter yrs = Raise TypeError)
         \/ (sty = PList (season_id :: ss) /\ yrs = PList (yr :: ys)
             /\ py_iter wks = Raise TypeError) ->
         load_weekly_qbr read_html yrs wks sty
         = (Return EmptyList, [Print parameters_message; Print no_data_message])).
Proof.
  split.
  - intros season_ids yrs wks pre post p e msg Hpages Hpre Hp He.
    rewrite (load_weekly_qbr_end read_html _ _ _ (Raise e)
               (collected read_html no_locals pre)
               (fetches pre ++ [Fetch (page_url p)])).
    + unfold collected. cbn [loc_df no_locals app].
      destruct He as [[-> ->] | [-> ->]]; cbn [weekly_end];
        rewrite <- app_assoc; reflexivity.
    + rewrite weekly_loop_pages, Hpages.
      apply pages_stop_at_raise; assumption.
  - intros yrs wks sty season_id yr ss ys H.
    apply (load_weekly_qbr_end read_html yrs wks sty
             (Raise TypeError) no_locals []).
    unfold weekly_loop, for_in, bind, lift.
    destruct H as [H | [[-> H] | [-> [-> H]]]].
    + rewrite H. reflexivity.
    + cbn [py_iter for_each]. unfold bind. rewrite H. reflexivity.
    + cbn [py_iter for_each]. unfold bind. cbn [py_iter for_each]. unfold bind.
      rewrite H. reflexivity.
Qed.

Lemma weekly_loop_stops_at_first_failure_witness :
  load_weekly_qbr (week1_raises ImportError)
    (PList [SInt 2019; SInt 2020]) (PList [SInt 1; SInt 2]) (PList [SInt 2])
  = (Return
       (Frame
          (weekly_frame (week1_raises ImportError) (SInt 2, SInt 2019, SInt 1)
           ++ weekly_frame (week1_raises ImportError) (SInt 2, SInt 2019, SInt 2)
           ++ [])),
     [Fetch (weekly_url (SInt 2019) (SInt 2) (SInt 1));
      Fetch (weekly_url (SInt 2019) (SInt 2) (SInt 2));
      Fetch week1_url; Print weekly_import_message])
  /\ load_weekly_qbr every_page (PScalar (SInt 2020)) (PList [SInt 1]) (PList [SInt 2])
     = (Return EmptyList, [Print parameters_message; Print no_data_message]).
Proof.
  split.
  - apply (proj1 (weekly_loop_stops_at_first_failure (week1_raises ImportError))
             [SInt 2] [SInt 2019; SInt 2020] [SInt 1; SInt 2]
             [(SInt 2, SInt 2019, SInt 1); (SInt 2, SInt 2019, SInt 2)]
             [(SInt 2, SInt 2020, SInt 2)]
             (SInt 2, SInt 2020, SInt 1) ImportError weekly_import_message).
    + reflexivity.
    + repeat constructor; discriminate.
    + reflexivity.
    + left. split; reflexivity.
  - apply (proj2 (weekly_loop_stops_at_first_failure every_page)
             (PScalar (SInt 2020)) (PList [SInt 1]) (PList [SInt 2])
             (SInt 2) SNone [] []).
    right. left. split; reflexivity.
Defined.

(** * Repeating a request *)

Lemma for_in_ext {S} (v : pyval) (body body' : scalar -> M S unit) :
  (forall x s, body x s = body' x s) ->
  forall s, for_in v body s = for_in v body' s.
Proof.
  intros H s. unfold for_in, bind, lift.
  destruct (py_iter v) as [l | e]; [| reflexivity].
  rewrite (for_each_ext l body body'); [reflexivity |].
  intros x s' _. apply H.
Qed.

Section SamePages.

Variables read1 read2 : string -> outcome (list DataFrame).
Hypothesis same_pages : forall url, read1 url = read2 url.

Lemma weekly_page_same (season_id year week : scalar) (st : locals) :
  weekly_page read1 season_id year week st
  = weekly_page read2 season_id year week st.
Proof.
  unfold weekly_page, bind, fetch. rewrite same_pages. reflexivity.
Qed.

Lemma leaders_page_same (season_id year : scalar) (st : locals) :
  leaders_page read1 season_id year st = leaders_page read2 season_id year st.
Proof.
  unfold leaders_page, bind, fetch. rewrite same_pages. reflexivity.
Qed.

Lemma load_weekly_qbr_same (yrs wks sty : pyval) :
  load_weekly_qbr read1 yrs wks sty = load_weekly_qbr read2 yrs wks sty.
Proof.
  unfold load_weekly_qbr, load_weekly_qbr_body, bind, try_except.
  assert (E : weekly_loop read1 yrs wks sty no_locals
              = weekly_loop read2 yrs wks sty no_locals).
  { unfold weekly_loop.
    apply for_in_ext. intros season_id s1.
    apply for_in_ext. intros year s2.
    apply for_in_ext. intros week s3.
    destruct (skipped season_id week); [reflexivity |].
    apply weekly_page_same. }
  rewrite E. reflexivity.
Qed.

Lemma load_season_leaders_qbr_same (yrs sty : pyval) :
  load_season_leaders_qbr read1 yrs sty = load_season_leaders_qbr read2 yrs sty.
Proof.
  unfold load_season_leaders_qbr, load_season_leaders_qbr_body, bind, try_except.
  assert (E : leaders_loop read1 yrs sty no_locals
              = leaders_loop read2 yrs sty no_locals).
  { unfold leaders_loop.
    apply for_in_ext. intros season_id s1.
    apply for_in_ext. intros year s2.
    apply leaders_page_same. }
  rewrite E. reflexivity.
Qed.

Lemma load_qbr_same (q : Qbr) : load_qbr read1 q = load_qbr read2 q.
Proof.
  rewrite !load_qbr_run. cbv zeta.
  rewrite load_weekly_qbr_same, load_season_leaders_qbr_same. reflexivity.
Qed.

End SamePages.

Lemma convert_to_list_twice (v : pyval) :
  convert_to_list (convert_to_list v) = convert_to_list v.
Proof.
  destruct v as [a | l]; simpl.
  - destruct (isinstance_int a) eqn:Ha; simpl; [rewrite Ha |]; reflexivity.
  - destruct (all_int_loop l) eqn:Hl; simpl; [rewrite Hl |]; reflexivity.
Qed.

(** Once [load_qbr] has run, the season-type field holds codes, or [None],
    and a further conversion finds no season name in it. *)
Lemma season_codes_twice (q : Qbr) :
  season_codes (normalised_object q) = PNone.
Proof.
  unfold season_codes at 1, convert_season_identifiers, bind, get, ret, print,
    outcome_of.
  unfold normalised_object. cbn [season_type fst].
  destruct (season_codes_cases q) as [[-> _] | [[-> _] | [[-> _] | [-> _]]]];
    reflexivity.
Qed.

(** The second of two [load_qbr] calls on one object does not repeat the
    first: the first leaves codes where the season name was. *)
Lemma load_qbr_second_call_differs :
  outcome_of (load_qbr every_page sample_request)
  = Return (Frame (weekly_frame every_page (SInt 2, SInt 2020, SInt 1)))
  /\ season_type sample_request = PScalar (SStr "regular")
  /\ season_type (state_of (load_qbr every_page sample_request)) = PList [SInt 2]
  /\ outcome_of (load_qbr every_page (state_of (load_qbr every_page sample_request)))
     = Return EmptyList
  /\ outcome_of (load_qbr every_page (state_of (load_qbr every_page sample_request)))
     <> outcome_of (load_qbr every_page sample_request).
Proof.
  split; [reflexivity |]. split; [reflexivity |]. split; [reflexivity |].
  split; [reflexivity |]. intros H. vm_compute in H. discriminate H.
Qed.

(** C3, amended.  Two [load_qbr] calls on equal objects, with collaborators
    that return the same tables for every address, give the same result,
    diagnostics and reads.  [load_qbr] does change its object: it stores the
    normalised years, weeks and season codes in it.  On a second call on the
    same object the years and weeks stay as they are, but the stored codes
    are no season name: the call gets no codes, reads no page and returns no
    frame. *)
Theorem load_qbr_repeated
        (read1 read2 : string -> outcome (list DataFrame)) (q : Qbr) :
  (forall url, read1 url = read2 url) ->
  load_qbr read1 q = load_qbr read2 q
  /\ state_of (load_qbr read1 q) = normalised_object q
  /\ years (state_of (load_qbr read2 (state_of (load_qbr read1 q))))
     = years (state_of (load_qbr read1 q))
  /\ weeks (state_of (load_qbr read2 (state_of (load_qbr read1 q))))
     = weeks (state_of (load_qbr read1 q))
  /\ stat_type (state_of (load_qbr read2 (state_of (load_qbr read1 q))))
     = stat_type q
  /\ season_type (state_of (load_qbr read2 (state_of (load_qbr read1 q)))) = PNone
  /\ Forall is_print (trace_of (load_qbr read2 (state_of (load_qbr read1 q))))
  /\ (forall d, outcome_of (load_qbr read2 (state_of (load_qbr read1 q)))
                <> Return (Frame d)).
Proof.
  intros Hsame.
  assert (Hst : forall read p, state_of (load_qbr read p) = normalised_object p).
  { intros read p. rewrite load_qbr_run. cbv zeta.
    destruct (String.eqb (stat_type p) "weekly"); [reflexivity |].
    destruct (String.eqb (stat_type p) "leaders"); reflexivity. }
  split; [apply load_qbr_same; exact Hsame |].
  split; [apply Hst |].
  rewrite !Hst.
  split; [apply convert_to_list_twice |].
  split; [apply convert_to_list_twice |].
  split; [reflexivity |].
  split; [apply season_codes_twice |].
  split.
  - apply load_qbr_without_codes, season_codes_twice.
  - intros d.
    pose proof (season_codes_twice q) as Hc.
    remember (normalised_object q) as q1 eqn:Hq1.
    rewrite load_qbr_run. cbv zeta.
    unfold normalised_object. cbn [years weeks season_type stat_type].
    rewrite Hc.
    destruct (String.eqb (stat_type q1) "weekly").
    + rewrite weekly_without_codes. discriminate.
    + destruct (String.eqb (stat_type q1) "leaders"); discriminate.
Qed.

Lemma load_qbr_repeated_witness :
  load_qbr every_page sample_request = load_qbr every_page_by_cases sample_request
  /\ state_of (load_qbr every_page sample_request)
     = normalised_object sample_request
  /\ season_type
       (state_of
          (load_qbr every_page_by_cases
             (state_of (load_qbr every_page sample_request))))
     = PNone.
Proof.
  assert (Hsame : forall url, every_page url = every_page_by_cases url).
  { intros url. unfold every_page_by_cases.
    destruct (String.eqb url week1_url); reflexivity. }
  pose proof (load_qbr_repeated every_page every_page_by_cases sample_request
                Hsame) as H.
  split; [exact (proj1 H) |].
  split; [exact (proj1 (proj2 H)) |].
  exact (proj1 (proj2 (proj2 (proj2 (proj2 (proj2 H)))))).
Defined.

(** * The columns a weekly load appends *)

Section Tagging.

Variable read_html : string -> outcome (list DataFrame).

Lemma weekly_frame_tagged (season_id year week : scalar) :
  Forall (row_tagged year) (weekly_frame read_html (season_id, year, week)).
Proof.
  unfold weekly_frame.
  destruct (page_table read_html (weekly_url year season_id week)).
  - apply tagged_rows.
  - constructor.
Qed.






End Tagging.



(** * Page addresses *)

Lemma string_append_assoc (a b c : string) :
  ((a ++ b) ++ c)%string = (a ++ (b ++ c))%string.
Proof.
  induction a as [| x a IH]; simpl; [reflexivity | rewrite IH; reflexivity].
Qed.

Lemma has_slash_append (a b : string) :
  has_slash (a ++ String "/" b) = true.
Proof.
  induction a as [| x a IH]; simpl.
  - reflexivity.
  - rewrite IH. apply orb_true_r.
Qed.

(** Two strings that end in a slash-free segment after a slash agree on the
    segment and on what is before it. *)
Lemma last_segment (a a' b b' : string) :
  has_slash b = false -> has_slash b' = false ->
  (a ++ String "/" b)%string = (a' ++ String "/" b')%string ->
  a = a' /\ b = b'.
Proof.
  intros Hb Hb'. revert a'.
  induction a as [| x a IH]; intros [| x' a'] H; simpl in H.
  - injection H as H. split; [reflexivity | exact H].
  - injection H as Hx H. subst b.
    rewrite has_slash_append in Hb. discriminate Hb.
  - injection H as Hx H. subst b'.
    rewrite has_slash_append in Hb'. discriminate Hb'.
  - injection H as Hx H. subst x'.
    destruct (IH a' H) as [-> ->]. split; reflexivity.
Qed.

Lemma uint_no_slash (d : Decimal.uint) :
  has_slash (NilEmpty.string_of_uint d) = false.
Proof.
  induction d; simpl; auto.
Qed.

Lemma py_str_int_no_slash (a : scalar) :
  isinstance_int a = true -> has_slash (py_str a) = false.
Proof.
  destruct a as [| [|] | z | s]; simpl; intros H; try discriminate H;
    try reflexivity.
  destruct (Z.to_int z) as [d | d]; simpl.
  - destruct d; try reflexivity; apply (uint_no_slash (_ d)).
  - destruct d; try reflexivity; apply (uint_no_slash (_ d)).
Qed.

Lemma to_int_proper (z : Z) :
  Z.to_int z <> Decimal.Pos Decimal.Nil /\ Z.to_int z <> Decimal.Neg Decimal.Nil.
Proof.
  destruct z as [| p | p]; simpl; split; try discriminate;
    intros H; injection H as H;
    exact (DecimalPos.Unsigned.to_uint_nonnil p H).
Qed.

(** [str] is one-to-one on [int] objects that are not [bool]. *)
Lemma py_str_int_inj (z z' : Z) :
  py_str (SInt z) = py_str (SInt z') -> z = z'.
Proof.
  simpl. intros H. apply DecimalZ.to_int_inj.
  destruct (to_int_proper z) as [H1 H2]. destruct (to_int_proper z') as [H3 H4].
  apply (f_equal NilZero.int_of_string) in H.
  rewrite !NilZero.isi in H by assumption.
  injection H as H. exact H.
Qed.

Lemma py_str_is_literal (a : scalar) (n : Z) :
  isinstance_int a = true ->
  (0 <= n)%Z ->
  py_str a = py_str (SInt n) -> a = SInt n.
Proof.
  intros Ha Hn H. destruct a as [| b | z | s]; try discriminate Ha.
  - exfalso. simpl in H. destruct n as [| p | p]; [| | lia].
    + destruct b; discriminate H.
    + simpl in H.
      pose proof (DecimalPos.Unsigned.to_uint_nonnil p) as Hp.
      destruct (Pos.to_uint p); try contradiction;
        destruct b; discriminate H.
  - f_equal. apply py_str_int_inj. exact H.
Qed.

(** The address of a triple that passed the guard is not the address of
    week 4 of a postseason. *)
Lemma weekly_url_not_week4 (year season_id week other : scalar) :
  isinstance_int season_id = true ->
  isinstance_int week = true ->
  skipped season_id week = false ->
  weekly_url year season_id week <> weekly_url other (SInt 3) (SInt 4).
Proof.
  intros Hs Hw Hskip H.
  assert (Hsplit : forall y s w,
             weekly_url y s w
             = (((("https://www.espn.com/nfl/qbr/_/view/weekly/season/"
                   ++ py_str y ++ "/seasontype")
                  ++ String "/" (py_str s))
                 ++ String "/" "week")
                ++ String "/" (py_str w))%string).
  { intros y s w. unfold weekly_url.
    rewrite !string_append_assoc. reflexivity. }
  rewrite !Hsplit in H.
  apply last_segment in H;
    [| apply py_str_int_no_slash; assumption | reflexivity].
  destruct H as [H Hweek].
  apply last_segment in H; [| reflexivity | reflexivity].
  destruct H as [H _].
  apply last_segment in H;
    [| apply py_str_int_no_slash; assumption | reflexivity].
  destruct H as [_ Hseason].
  apply (py_str_is_literal season_id 3 Hs) in Hseason; [| lia].
  apply (py_str_is_literal week 4 Hw) in Hweek; [| lia].
  subst. discriminate Hskip.
Qed.

Lemma leaders_url_not_weekly (year season_id other s w : scalar) :
  leaders_url year season_id <> weekly_url other s w.
Proof.
  unfold leaders_url, weekly_url. simpl. discriminate.
Qed.

(** * The postseason week 4 guard *)

Lemma weekly_pages_in (season_ids yrs wks : list scalar) (s y w : scalar) :
  In (s, y, w) (weekly_pages season_ids yrs wks)
  <-> In s season_ids /\ In y yrs /\ In w wks /\ skipped s w = false.
Proof.
  unfold weekly_pages. rewrite in_flat_map. split.
  - intros [s' [Hs H]]. apply in_flat_map in H. destruct H as [y' [Hy H]].
    apply in_flat_map in H. destruct H as [w' [Hw H]].
    destruct (skipped s' w') eqn:Hskip; simpl in H; [contradiction |].
    destruct H as [H | []]. injection H as <- <- <-. auto.
  - intros [Hs [Hy [Hw Hskip]]]. exists s. split; [exact Hs |].
    apply in_flat_map. exists y. split; [exact Hy |].
    apply in_flat_map. exists w. split; [exact Hw |].
    rewrite Hskip. left. reflexivity.
Qed.

Lemma postseason_weeks_drop_week4 (y : scalar) (wks : list scalar) :
  flat_map (fun week => if skipped (SInt 3) week then [] else [(SInt 3, y, week)])
           (filter (fun w => negb (py_eq_int w 4)) wks)
  = flat_map (fun week => if skipped (SInt 3) week then [] else [(SInt 3, y, week)])
             wks.
Proof.
  induction wks as [| w wks IHw]; simpl; [reflexivity |].
  assert (Hskip : skipped (SInt 3) w = py_eq_int w 4) by reflexivity.
  destruct (py_eq_int w 4) eqn:Hw; simpl; rewrite Hskip; simpl.
  - exact IHw.
  - rewrite IHw. reflexivity.
Qed.

Lemma weekly_pages_postseason_drop_week4 (yrs wks : list scalar) :
  weekly_pages [SInt 3] yrs (filter (fun w => negb (py_eq_int w 4)) wks)
  = weekly_pages [SInt 3] yrs wks.
Proof.
  unfold weekly_pages. simpl. f_equal.
  apply flat_map_ext. intros y. apply postseason_weeks_drop_week4.
Qed.

Lemma Fetch_inj (u v : string) : Fetch u = Fetch v -> u = v.
Proof.
  intros H.
  exact (f_equal (fun e => match e with Fetch url => url | Print _ => u end) H).
Qed.

Lemma print_not_postseason_week4 (msg : string) :
  not_postseason_week4 (Print msg).
Proof. intros other H. discriminate H. Qed.

(** A trace that is the loop's trace followed by diagnostics. *)
Ltac loop_then_prints Hloop :=
  repeat first
    [ exact Hloop
    | apply Forall_app; split
    | apply Forall_cons
    | apply Forall_nil
    | apply print_not_postseason_week4 ].

Section Guard.

Variable read_html : string -> outcome (list DataFrame).

Lemma load_weekly_qbr_pages (season_ids yrs wks : list scalar) :
  load_weekly_qbr read_html (PList yrs) (PList wks) (PList season_ids)
  = load_weekly_pages read_html (weekly_pages season_ids yrs wks).
Proof.
  unfold load_weekly_pages.
  destruct (for_each (weekly_pages season_ids yrs wks)
              (weekly_turn read_html) no_locals) as [[o st] t] eqn:Hrun.
  apply load_weekly_qbr_end. rewrite weekly_loop_pages. exact Hrun.
Qed.

(** The weekly loop over integer codes and weeks reads no postseason
    week 4. *)
Lemma weekly_loop_guarded (yrs wks sty : pyval) (st : locals) :
  (forall l, py_iter sty = Return l ->
             Forall (fun a => isinstance_int a = true) l) ->
  (forall l, py_iter wks = Return l ->
             Forall (fun a => isinstance_int a = true) l) ->
  Forall not_postseason_week4
         (trace_of (weekly_loop read_html yrs wks sty st)).
Proof.
  intros Hsty Hwks. unfold weekly_loop.
  apply (for_in_keeps (fun _ => True) not_postseason_week4); [| exact I].
  intros ls season_id s1 Hls Hin1 _.
  apply (for_in_keeps (fun _ => True) not_postseason_week4); [| exact I].
  intros ly year s2 _ _ _.
  apply (for_in_keeps (fun _ => True) not_postseason_week4); [| exact I].
  intros lw week s3 Hlw Hin3 _.
  split; [exact I |].
  destruct (skipped season_id week) eqn:Hskip.
  - constructor.
  - rewrite weekly_page_trace.
    assert (Hnot : not_postseason_week4 (Fetch (weekly_url year season_id week))).
    { intros other H. apply Fetch_inj in H. revert H.
      apply weekly_url_not_week4; [| | exact Hskip].
      - specialize (Hsty ls Hls). rewrite Forall_forall in Hsty. auto.
      - specialize (Hwks lw Hlw). rewrite Forall_forall in Hwks. auto. }
    repeat constructor; exact Hnot.
Qed.

Lemma leaders_loop_guarded (yrs sty : pyval) (st : locals) :
  Forall not_postseason_week4 (trace_of (leaders_loop read_html yrs sty st)).
Proof.
  unfold leaders_loop.
  apply (for_in_keeps (fun _ => True) not_postseason_week4); [| exact I].
  intros ls season_id s1 _ _ _.
  apply (for_in_keeps (fun _ => True) not_postseason_week4); [| exact I].
  intros ly year s2 _ _ _.
  split; [exact I |].
  unfold leaders_page, bind, fetch, lift, modify, trace_of.
  assert (Hnot : not_postseason_week4 (Fetch (leaders_url year season_id))).
  { intros other H. apply Fetch_inj in H. revert H.
    apply leaders_url_not_weekly. }
  destruct (read_html (leaders_url year season_id)) as [[| d ds] | e];
    cbn; repeat constructor; exact Hnot.
Qed.

Lemma load_weekly_qbr_guarded (yrs wks sty : pyval) :
  (forall l, py_iter sty = Return l ->
             Forall (fun a => isinstance_int a = true) l) ->
  (forall l, py_iter wks = Return l ->
             Forall (fun a => isinstance_int a = true) l) ->
  Forall not_postseason_week4 (snd (load_weekly_qbr read_html yrs wks sty)).
Proof.
  intros Hsty Hwks.
  pose proof (weekly_loop_guarded yrs wks sty no_locals Hsty Hwks) as Hloop.
  destruct (weekly_loop read_html yrs wks sty no_locals) as [[o st] t] eqn:Hrun.
  rewrite (load_weekly_qbr_end read_html _ _ _ o st t Hrun).
  unfold trace_of in Hloop. cbn [snd] in Hloop.
  unfold weekly_end, bound.
  destruct o as [[] | []]; destruct (loc_df st); cbn [fst snd];
    rewrite ?app_nil_r; loop_then_prints Hloop.
Qed.

Lemma load_season_leaders_qbr_guarded (yrs sty : pyval) :
  Forall not_postseason_week4 (snd (load_season_leaders_qbr read_html yrs sty)).
Proof.
  pose proof (leaders_loop_guarded yrs sty no_locals) as Hloop.
  unfold load_season_leaders_qbr, load_season_leaders_qbr_body, bind_collected,
    return_out, set_out, bind, try_except, get, modify, lift, print, ret, raise.
  destruct (leaders_loop read_html yrs sty no_locals) as [[o st] t].
  unfold trace_of in Hloop. cbn [snd] in Hloop.
  destruct st as [frames out].
  destruct o as [[] | []]; destruct frames as [| d frames]; cbn;
    rewrite ?app_nil_r; loop_then_prints Hloop.
Qed.

Lemma season_codes_integers (q : Qbr) (l : list scalar) :
  py_iter (season_codes q) = Return l ->
  Forall (fun a => isinstance_int a = true) l.
Proof.
  destruct (season_codes_cases q) as [[-> _] | [[-> _] | [[-> _] | [-> _]]]];
    simpl; intros H; try discriminate H; injection H as <-;
    repeat constructor.
Qed.

Lemma load_qbr_guarded (q : Qbr) :
  Forall not_postseason_week4 (trace_of (load_qbr read_html q)).
Proof.
  rewrite load_qbr_run. cbv zeta.
  assert (Hs : Forall not_postseason_week4 (season_trace q)).
  { destruct (season_codes_cases q) as [[_ ->] | [[_ ->] | [[_ ->] | [_ ->]]]];
      repeat constructor. apply print_not_postseason_week4. }
  unfold normalised_object. cbn [years weeks season_type].
  destruct (String.eqb (stat_type q) "weekly").
  - unfold trace_of. cbn [snd]. apply Forall_app. split; [exact Hs |].
    apply load_weekly_qbr_guarded.
    + apply season_codes_integers.
    + apply convert_to_list_iter.
  - destruct (String.eqb (stat_type q) "leaders").
    + unfold trace_of. cbn [snd]. apply Forall_app. split; [exact Hs |].
      apply load_season_leaders_qbr_guarded.
    + unfold trace_of. cbn [snd]. apply Forall_app. split; [exact Hs |].
      repeat constructor. apply print_not_postseason_week4.
Qed.

End Guard.

(** C7.  No [load_qbr] call reads the address of (season code 3, any year,
    week 4).  A weekly load over lists is a function of the triples that
    passed the guard, which are the requested triples other than
    (3, year, 4), in loop order; so in a postseason request week 4 adds
    nothing: the load with week 4 among the weeks and the load without it
    are the same, rows, reads and diagnostics. *)
Theorem postseason_week4_skipped
        (read_html : string -> outcome (list DataFrame)) :
  (forall (q : Qbr) (year : scalar),
      ~ In (Fetch (weekly_url year (SInt 3) (SInt 4)))
           (trace_of (load_qbr read_html q)))
  /\ (forall season_ids yrs wks : list scalar,
         load_weekly_qbr read_html (PList yrs) (PList wks) (PList season_ids)
         = load_weekly_pages read_html (weekly_pages season_ids yrs wks))
  /\ (forall (season_ids yrs wks : list scalar) (s y w : scalar),
         In (s, y, w) (weekly_pages season_ids yrs wks)
         <-> In s season_ids /\ In y yrs /\ In w wks
             /\ (py_eq_int s 3 && py_eq_int w 4 = false))
  /\ (forall yrs wks : list scalar,
         load_weekly_qbr read_html (PList yrs)
           (PList (filter (fun w => negb (py_eq_int w 4)) wks)) (PList [SInt 3])
         = load_weekly_qbr read_html (PList yrs) (PList wks) (PList [SInt 3]))
  /\ load_weekly_qbr read_html (PList [SInt 2019; SInt 2020]) (PList [SInt 4])
       (PList [SInt 3])
     = (Return EmptyList, [Print no_data_message]).
Proof.
  split; [| split; [| split; [| split]]].
  - intros q year Hin.
    pose proof (load_qbr_guarded read_html q) as H.
    rewrite Forall_forall in H. exact (H _ Hin year eq_refl).
  - apply load_weekly_qbr_pages.
  - intros. apply weekly_pages_in.
  - intros yrs wks. rewrite !load_weekly_qbr_pages.
    rewrite weekly_pages_postseason_drop_week4. reflexivity.
  - reflexivity.
Qed.

(** * The leaders loop, page by page *)

Section LeadersFacts.

Variable read_html : string -> outcome (list DataFrame).

Lemma leaders_page_run (season_id year : scalar) (st : locals) :
  leaders_page read_html season_id year st
  = match read_html (leaders_url year season_id) with
    | Return (_ :: _) =>
        (Return tt, push_frame (leaders_frame read_html (season_id, year)) st,
         [Fetch (leaders_url year season_id)])
    | Return [] => (Raise ValueError, st, [Fetch (leaders_url year season_id)])
    | Raise e => (Raise e, st, [Fetch (leaders_url year season_id)])
    end.
Proof.
  unfold leaders_page, leaders_frame, page_table, bind, fetch, lift.
  destruct (read_html (leaders_url year season_id)) as [[| d ds] | e];
    reflexivity.
Qed.

Lemma leaders_loop_pages (season_ids yrs : list scalar) (st : locals) :
  leaders_loop read_html (PList yrs) (PList season_ids) st
  = for_each (leaders_pages season_ids yrs) (leaders_turn read_html) st.
Proof.
  unfold leaders_loop, leaders_pages.
  rewrite for_in_list, for_each_flat_map.
  apply for_each_ext. intros season_id s1 _.
  rewrite for_in_list, for_each_flat_map.
  apply for_each_ext. intros year s2 _. simpl.
  apply eq_sym, (bind_ret_tt (leaders_page read_html season_id year)).
Qed.

Lemma leaders_turn_read (p : scalar * scalar) (st : locals) :
  leaders_page_read read_html p ->
  leaders_turn read_html p st
  = (Return tt, push_frame (leaders_frame read_html p) st,
     [Fetch (leaders_page_url p)]).
Proof.
  destruct p as [season_id year]. unfold leaders_page_read, page_table. simpl.
  intros H. rewrite leaders_page_run.
  destruct (read_html (leaders_url year season_id)) as [[| d ds] | e];
    try reflexivity; contradiction H; reflexivity.
Qed.

Lemma leaders_collected_nil (st : locals) : leaders_collected read_html st [] = st.
Proof.
  unfold leaders_collected. simpl. rewrite app_nil_r. destruct st. reflexivity.
Qed.

Lemma leaders_collected_cons (st : locals) p pages :
  leaders_collected read_html (push_frame (leaders_frame read_html p) st) pages
  = leaders_collected read_html st (p :: pages).
Proof.
  unfold leaders_collected, push_frame. simpl. rewrite <- app_assoc. reflexivity.
Qed.

Lemma leaders_pages_all_read (pages : list (scalar * scalar)) (st : locals) :
  Forall (leaders_page_read read_html) pages ->
  for_each pages (leaders_turn read_html) st
  = (Return tt, leaders_collected read_html st pages, leaders_fetches pages).
Proof.
  intros H. revert st. induction H as [| p pages Hp _ IH]; intros st.
  - simpl. rewrite leaders_collected_nil. reflexivity.
  - simpl. unfold bind.
    rewrite (leaders_turn_read p st Hp), IH, leaders_collected_cons.
    reflexivity.
Qed.

(** The first page that cannot be read ends the leaders loop with the
    exception [e] that reading it gave. *)
Lemma leaders_pages_stop (pre post : list (scalar * scalar))
      (p : scalar * scalar) (e : exn) (st : locals) :
  Forall (leaders_page_read read_html) pre ->
  outcome_of (leaders_turn read_html p (leaders_collected read_html st pre))
  = Raise e ->
  for_each (pre ++ p :: post) (leaders_turn read_html) st
  = (Raise e, leaders_collected read_html st pre,
     leaders_fetches pre ++ [Fetch (leaders_page_url p)]).
Proof.
  intros Hpre Hp. rewrite for_each_app. unfold bind.
  rewrite (leaders_pages_all_read pre st Hpre). simpl. unfold bind.
  destruct p as [season_id year]. simpl in *.
  rewrite leaders_page_run in *.
  destruct (read_html (leaders_url year season_id)) as [[| d ds] | e'];
    unfold outcome_of in Hp; simpl in Hp; try discriminate Hp;
    injection Hp as <-; reflexivity.
Qed.

Lemma load_season_leaders_qbr_end (yrs sty : pyval)
      (o : outcome unit) (st : locals) (t : list event) :
  leaders_loop read_html yrs sty no_locals = (o, st, t) ->
  load_season_leaders_qbr read_html yrs sty = leaders_end o (loc_df st) t.
Proof.
  intros H.
  unfold load_season_leaders_qbr, load_season_leaders_qbr_body, bind_collected,
    return_out, set_out, bind, try_except, get, modify, lift, print, ret, raise.
  rewrite H. destruct st as [frames out].
  destruct o as [[] | []]; destruct frames as [| d frames]; simpl;
    rewrite ?app_nil_r, <- ?app_assoc; reflexivity.
Qed.

End LeadersFacts.

Lemma row_count_concat (frames : list DataFrame) :
  List.length (List.concat frames) = row_count frames.
Proof.
  unfold row_count. induction frames as [| d frames IH]; simpl.
  - reflexivity.
  - rewrite length_app, IH. reflexivity.
Qed.

Lemma bound_frames (frames : list DataFrame) :
  frames <> [] -> bound frames = (Return (Frame (List.concat frames)), []).
Proof.
  destruct frames; [intros H; contradiction H; reflexivity | reflexivity].
Qed.

(** * What the loaders return when pages are read *)

Lemma leaders_frame_length (read_html : string -> outcome (list DataFrame))
      (p : scalar * scalar) :
  List.length (leaders_frame read_html p) = page_rows read_html (leaders_page_url p).
Proof.
  destruct p as [season_id year]. unfold leaders_frame, page_rows. simpl.
  destruct (page_table read_html (leaders_url year season_id)); [| reflexivity].
  unfold set_column. apply length_map.
Qed.

Lemma weekly_frame_length (read_html : string -> outcome (list DataFrame))
      (p : scalar * scalar * scalar) :
  List.length (weekly_frame read_html p) = page_rows read_html (page_url p).
Proof.
  destruct p as [[season_id year] week]. unfold weekly_frame, page_rows. simpl.
  destruct (page_table read_html (weekly_url year season_id week));
    [| reflexivity].
  unfold set_column. rewrite !length_map. reflexivity.
Qed.

Lemma row_count_map {P : Type} (frame : P -> DataFrame) (rows : P -> nat)
      (pages : list P) :
  (forall p, List.length (frame p) = rows p) ->
  row_count (map frame pages) = list_sum (map rows pages).
Proof.
  intros H. unfold row_count. rewrite map_map. f_equal.
  apply map_ext. exact H.
Qed.

(** X1.  A leaders load over lists whose pages all have tables returns one
    frame: the page frames, each with its year column, one after the other
    in the order season code, then year.  It reads each page once, in that
    order, prints nothing, and the frame has as many rows as the pages'
    tables together. *)
Theorem leaders_all_pages_read
        (read_html : string -> outcome (list DataFrame))
        (season_ids yrs : list scalar) :
  leaders_pages season_ids yrs <> [] ->
  Forall (leaders_page_read read_html) (leaders_pages season_ids yrs) ->
  load_season_leaders_qbr read_html (PList yrs) (PList season_ids)
  = (Return (Frame (List.concat (map (leaders_frame read_html)
                                     (leaders_pages season_ids yrs)))),
     leaders_fetches (leaders_pages season_ids yrs))
  /\ List.length (List.concat (map (leaders_frame read_html)
                                   (leaders_pages season_ids yrs)))
     = list_sum (map (fun p => page_rows read_html (leaders_page_url p))
                     (leaders_pages season_ids yrs)).
Proof.
  intros Hne Hread. split.
  - rewrite (load_season_leaders_qbr_end read_html _ _ (Return tt)
               (leaders_collected read_html no_locals
                  (leaders_pages season_ids yrs))
               (leaders_fetches (leaders_pages season_ids yrs))).
    + unfold leaders_collected, leaders_end. cbn [loc_df no_locals app].
      rewrite bound_frames.
      * cbn [fst snd]. rewrite app_nil_r. reflexivity.
      * intros H. apply map_eq_nil in H. contradiction.
    + rewrite leaders_loop_pages. apply leaders_pages_all_read. exact Hread.
  - rewrite row_count_concat. apply row_count_map.
    apply leaders_frame_length.
Qed.

Lemma leaders_all_pages_read_witness :
  load_season_leaders_qbr every_page
    (PList [SInt 2019; SInt 2020]) (PList [SInt 2])
  = (Return (Frame (List.concat
                      (map (leaders_frame every_page)
                           (leaders_pages [SInt 2] [SInt 2019; SInt 2020])))),
     leaders_fetches (leaders_pages [SInt 2] [SInt 2019; SInt 2020]))
  /\ List.length
       (List.concat (map (leaders_frame every_page)
                         (leaders_pages [SInt 2] [SInt 2019; SInt 2020])))
     = list_sum (map (fun p => page_rows every_page (leaders_page_url p))
                     (leaders_pages [SInt 2] [SInt 2019; SInt 2020])).
Proof.
  apply (leaders_all_pages_read every_page [SInt 2] [SInt 2019; SInt 2020]).
  - discriminate.
  - repeat constructor; discriminate.
Defined.

(** X2.  A page without tables ends the leaders loop: [pd.read_html] raising
    [ValueError], or handing back no table for [pd.concat] to bind, makes
    the loader print ['No tables found.'], read no further page, and return
    what it had collected, bound into one frame, or the empty list with the
    second diagnostic when it had nothing. *)
Theorem leaders_stops_at_page_without_tables
        (read_html : string -> outcome (list DataFrame))
        (season_ids yrs : list scalar)
        (pre post : list (scalar * scalar)) (p : scalar * scalar) :
  leaders_pages season_ids yrs = pre ++ p :: post ->
  Forall (leaders_page_read read_html) pre ->
  read_html (leaders_page_url p) = Raise ValueError
  \/ read_html (leaders_page_url p) = Return [] ->
  load_season_leaders_qbr read_html (PList yrs) (PList season_ids)
  = (fst (bound (map (leaders_frame read_html) pre)),
     leaders_fetches pre
     ++ Fetch (leaders_page_url p) :: Print no_tables_message
     :: snd (bound (map (leaders_frame read_html) pre))).
Proof.
  intros Hpages Hpre Hp.
  rewrite (load_season_leaders_qbr_end read_html _ _ (Raise ValueError)
             (leaders_collected read_html no_locals pre)
             (leaders_fetches pre ++ [Fetch (leaders_page_url p)])).
  - unfold leaders_collected, leaders_end. cbn [loc_df no_locals app].
    rewrite <- app_assoc. reflexivity.
  - rewrite leaders_loop_pages, Hpages. apply leaders_pages_stop; [exact Hpre |].
    destruct p as [season_id year]. simpl in *. rewrite leaders_page_run.
    destruct Hp as [-> | ->]; reflexivity.
Qed.

Lemma leaders_stops_at_page_without_tables_witness :
  load_season_leaders_qbr
    (fun url => if String.eqb url (leaders_url (SInt 2020) (SInt 2))
                then Raise ValueError else Return sample_page)
    (PList [SInt 2019; SInt 2020; SInt 2021]) (PList [SInt 2])
  = (Return (Frame (leaders_frame
                      (fun url =>
                         if String.eqb url (leaders_url (SInt 2020) (SInt 2))
                         then Raise ValueError else Return sample_page)
                      (SInt 2, SInt 2019) ++ [])),
     [Fetch (leaders_url (SInt 2019) (SInt 2));
      Fetch (leaders_url (SInt 2020) (SInt 2));
      Print no_tables_message]).
Proof.
  apply (leaders_stops_at_page_without_tables _ [SInt 2]
           [SInt 2019; SInt 2020; SInt 2021]
           [(SInt 2, SInt 2019)] [(SInt 2, SInt 2021)] (SInt 2, SInt 2020)).
  - reflexivity.
  - repeat constructor; discriminate.
  - left. reflexivity.
Defined.

(** X5.  A weekly load over lists whose pages all have a table that does
    not carry [season_type] on more than one column returns one frame: the
    page frames one after the other, in the order season code, then year,
    then week.  The pages are the requested triples other than those with
    season code 3 and week 4; each is read once, in that order, and nothing
    is printed.  The frame has as many rows as the pages' tables together,
    and the rows of a page carry its year and ['regular'] when its season
    code is 2, ['postseason'] otherwise. *)
Theorem weekly_all_pages_read
        (read_html : string -> outcome (list DataFrame))
        (season_ids yrs wks : list scalar) :
  weekly_pages season_ids yrs wks <> [] ->
  Forall (page_read read_html) (weekly_pages season_ids yrs wks) ->
  load_weekly_qbr read_html (PList yrs) (PList wks) (PList season_ids)
  = (Return (Frame (List.concat (map (weekly_frame read_html)
                                     (weekly_pages season_ids yrs wks)))),
     fetches (weekly_pages season_ids yrs wks))
  /\ List.length (List.concat (map (weekly_frame read_html)
                                   (weekly_pages season_ids yrs wks)))
     = list_sum (map (fun p => page_rows read_html (page_url p))
                     (weekly_pages season_ids yrs wks))
  /\ (forall s y w : scalar,
         In (s, y, w) (weekly_pages season_ids yrs wks)
         <-> In s season_ids /\ In y yrs /\ In w wks
             /\ (py_eq_int s 3 && py_eq_int w 4 = false))
  /\ (forall s y w : scalar,
         In (s, y, w) (weekly_pages season_ids yrs wks) ->
         Forall (fun r =>
                   lookup "year" r = Some y
                   /\ lookup "season_type" r
                      = Some (if py_eq_int s 2
                              then SStr "regular" else SStr "postseason"))
                (weekly_frame read_html (s, y, w))).
Proof.
  intros Hne Hread. split; [| split; [| split]].
  - rewrite (load_weekly_qbr_end read_html _ _ _ (Return tt)
               (collected read_html no_locals (weekly_pages season_ids yrs wks))
               (fetches (weekly_pages season_ids yrs wks))).
    + unfold collected, weekly_end. cbn [loc_df no_locals app].
      rewrite bound_frames.
      * cbn [fst snd]. rewrite app_nil_r. reflexivity.
      * intros H. apply map_eq_nil in H. contradiction.
    + rewrite weekly_loop_pages. apply pages_all_read. exact Hread.
  - rewrite row_count_concat. apply row_count_map.
    apply weekly_frame_length.
  - intros s y w. apply weekly_pages_in.
  - intros s y w _. unfold weekly_frame.
    destruct (page_table read_html (weekly_url y s w)) as [d |]; [| constructor].
    unfold set_column. rewrite map_map. apply Forall_forall.
    intros r Hr. apply in_map_iff in Hr. destruct Hr as [r0 [<- _]]. split.
    + rewrite lookup_set_cell_other by reflexivity. apply lookup_set_cell.
    + rewrite lookup_set_cell. reflexivity.
Qed.

Lemma weekly_all_pages_read_witness :
  load_weekly_qbr every_page
    (PList [SInt 2020]) (PList [SInt 3; SInt 4; SInt 5])
    (PList [SInt 2; SInt 3])
  = (Return (Frame (List.concat
                      (map (weekly_frame every_page)
                           (weekly_pages [SInt 2; SInt 3] [SInt 2020]
                              [SInt 3; SInt 4; SInt 5])))),
     [Fetch (weekly_url (SInt 2020) (SInt 2) (SInt 3));
      Fetch (weekly_url (SInt 2020) (SInt 2) (SInt 4));
      Fetch (weekly_url (SInt 2020) (SInt 2) (SInt 5));
      Fetch (weekly_url (SInt 2020) (SInt 3) (SInt 3));
      Fetch (weekly_url (SInt 2020) (SInt 3) (SInt 5))]).
Proof.
  apply (weekly_all_pages_read every_page [SInt 2; SInt 3] [SInt 2020]
           [SInt 3; SInt 4; SInt 5]).
  - discriminate.
  - repeat constructor.
Defined.

(** * The columns of a collected frame *)

Lemma lookup_after_set_cell (name other : string) (v : scalar) (r : row) :
  other <> name -> lookup other (set_cell name v r) = lookup other r.
Proof.
  intros Hne. apply lookup_set_cell_other. apply String.eqb_neq.
  intros H. apply Hne. symmetry. exact H.
Qed.

(** X3.  For a page that has a table, a turn of the leaders loop reads the
    page and collects one frame, and a request for that one page returns
    that frame: it has the rows of the page's table, in order, each with the
    requested year under [year] and every other column as published.  The
    loader adds no [season_type] column. *)
Theorem leaders_page_keeps_columns
        (read_html : string -> outcome (list DataFrame))
        (season_id year : scalar) (d : DataFrame) :
  page_table read_html (leaders_url year season_id) = Some d ->
  exists f : DataFrame,
    (forall st : locals,
        leaders_page read_html season_id year st
        = (Return tt, push_frame f st, [Fetch (leaders_url year season_id)]))
    /\ load_season_leaders_qbr read_html (PList [year]) (PList [season_id])
       = (Return (Frame f), [Fetch (leaders_url year season_id)])
    /\ List.length f = List.length d
    /\ forall (i : nat) (r : row),
        nth_error d i = Some r ->
        exists r',
          nth_error f i = Some r'
          /\ lookup "year" r' = Some year
          /\ (forall name, name <> "year" -> lookup name r' = lookup name r).
Proof.
  intros Hd. exists (set_column "year" year d).
  assert (Hturn : forall st,
             leaders_page read_html season_id year st
             = (Return tt, push_frame (set_column "year" year d) st,
                [Fetch (leaders_url year season_id)])).
  { intros st. rewrite leaders_page_run. unfold leaders_frame. rewrite Hd.
    unfold page_table in Hd.
    destruct (read_html (leaders_url year season_id)) as [[| d0 ds] | e];
      try discriminate Hd. reflexivity. }
  split; [exact Hturn |]. split; [| split].
  - rewrite (load_season_leaders_qbr_end read_html _ _ (Return tt)
               (push_frame (set_column "year" year d) no_locals)
               [Fetch (leaders_url year season_id)]).
    + unfold leaders_end, push_frame, bound. cbn.
      rewrite app_nil_r. reflexivity.
    + unfold leaders_loop. rewrite for_in_list. cbn [for_each]. unfold bind.
      rewrite for_in_list. cbn [for_each]. unfold bind. rewrite Hturn.
      reflexivity.
  - unfold set_column. apply length_map.
  - intros i r Hr. exists (set_cell "year" year r). split; [| split].
    + unfold set_column. rewrite nth_error_map, Hr. reflexivity.
    + apply lookup_set_cell.
    + intros name Hname. apply lookup_after_set_cell. exact Hname.
Qed.

Lemma leaders_page_keeps_columns_witness :
  exists f : DataFrame,
    (forall st : locals,
        leaders_page every_page (SInt 2) (SInt 2020) st
        = (Return tt, push_frame f st, [Fetch (leaders_url (SInt 2020) (SInt 2))]))
    /\ load_season_leaders_qbr every_page (PList [SInt 2020]) (PList [SInt 2])
       = (Return (Frame f), [Fetch (leaders_url (SInt 2020) (SInt 2))])
    /\ List.length f = 2%nat
    /\ forall (i : nat) (r : row),
        nth_error [[("NAME", SStr "P. Mahomes"); ("QBR", SInt 82)];
                   [("NAME", SStr "J. Allen"); ("QBR", SInt 76)]] i = Some r ->
        exists r',
          nth_error f i = Some r'
          /\ lookup "year" r' = Some (SInt 2020)
          /\ (forall name, name <> "year" -> lookup name r' = lookup name r).
Proof.
  apply (leaders_page_keeps_columns every_page (SInt 2) (SInt 2020)
           [[("NAME", SStr "P. Mahomes"); ("QBR", SInt 82)];
            [("NAME", SStr "J. Allen"); ("QBR", SInt 76)]]).
  reflexivity.
Defined.

(** X13.  For a page that has a table which does not carry [season_type] on
    more than one column, a turn of the weekly loop reads the page and
    collects one frame, and a request for that one page (week 4 of the
    postseason apart) returns that frame: it has the rows of the page's
    table, in order, each with the requested year under [year], the season
    name under [season_type] (['regular'] for code 2, ['postseason'] for any
    other code), and every other column as published. *)
Theorem weekly_page_keeps_columns
        (read_html : string -> outcome (list DataFrame))
        (season_id year week : scalar) (d : DataFrame) :
  page_table read_html (weekly_url year season_id week) = Some d ->
  single_label "season_type" d = true ->
  exists f : DataFrame,
    (forall st : locals,
        weekly_page read_html season_id year week st
        = (Return tt, push_frame f st,
           [Fetch (weekly_url year season_id week)]))
    /\ (py_eq_int season_id 3 && py_eq_int week 4 = false ->
        load_weekly_qbr read_html (PList [year]) (PList [week])
          (PList [season_id])
        = (Return (Frame f), [Fetch (weekly_url year season_id week)]))
    /\ List.length f = List.length d
    /\ forall (i : nat) (r : row),
        nth_error d i = Some r ->
        exists r',
          nth_error f i = Some r'
          /\ lookup "year" r' = Some year
          /\ lookup "season_type" r'
             = Some (if py_eq_int season_id 2
                     then SStr "regular" else SStr "postseason")
          /\ (forall name, name <> "year" -> name <> "season_type" ->
                           lookup name r' = lookup name r).
Proof.
  intros Hd Hsingle.
  exists (set_column "season_type" (season_label season_id)
            (set_column "year" year d)).
  assert (Hturn : forall st,
             weekly_page read_html season_id year week st
             = (Return tt,
                push_frame (set_column "season_type" (season_label season_id)
                              (set_column "year" year d)) st,
                [Fetch (weekly_url year season_id week)])).
  { intros st.
    change (weekly_page read_html season_id year week st)
      with (weekly_turn read_html (season_id, year, week) st).
    rewrite (weekly_turn_read read_html (season_id, year, week) st).
    - unfold weekly_frame. rewrite Hd. reflexivity.
    - unfold page_read. simpl. rewrite Hd. exact Hsingle. }
  split; [exact Hturn |]. split; [| split].
  - intros Hskip.
    rewrite (load_weekly_qbr_end read_html _ _ _ (Return tt)
               (push_frame (set_column "season_type" (season_label season_id)
                              (set_column "year" year d)) no_locals)
               [Fetch (weekly_url year season_id week)]).
    + unfold weekly_end, push_frame, bound. cbn.
      rewrite app_nil_r. reflexivity.
    + unfold weekly_loop. rewrite for_in_list. cbn [for_each]. unfold bind.
      rewrite for_in_list. cbn [for_each]. unfold bind.
      rewrite for_in_list. cbn [for_each]. unfold bind.
      unfold skipped. rewrite Hskip, Hturn. reflexivity.
  - unfold set_column. rewrite !length_map. reflexivity.
  - intros i r Hr.
    exists (set_cell "season_type" (season_label season_id)
              (set_cell "year" year r)).
    split; [| split; [| split]].
    + unfold set_column. rewrite map_map, nth_error_map, Hr. reflexivity.
    + rewrite lookup_after_set_cell by discriminate. apply lookup_set_cell.
    + rewrite lookup_set_cell. reflexivity.
    + intros name Hy Hs.
      rewrite lookup_after_set_cell by exact Hs.
      apply lookup_after_set_cell. exact Hy.
Qed.

Lemma weekly_page_keeps_columns_witness :
  exists f : DataFrame,
    (forall st : locals,
        weekly_page every_page (SInt 2) (SInt 2020) (SInt 4) st
        = (Return tt, push_frame f st,
           [Fetch (weekly_url (SInt 2020) (SInt 2) (SInt 4))]))
    /\ (py_eq_int (SInt 2) 3 && py_eq_int (SInt 4) 4 = false ->
        load_weekly_qbr every_page (PList [SInt 2020]) (PList [SInt 4])
          (PList [SInt 2])
        = (Return (Frame f), [Fetch (weekly_url (SInt 2020) (SInt 2) (SInt 4))]))
    /\ List.length f = 2%nat
    /\ forall (i : nat) (r : row),
        nth_error [[("NAME", SStr "P. Mahomes"); ("QBR", SInt 82)];
                   [("NAME", SStr "J. Allen"); ("QBR", SInt 76)]] i = Some r ->
        exists r',
          nth_error f i = Some r'
          /\ lookup "year" r' = Some (SInt 2020)
          /\ lookup "season_type" r' = Some (SStr "regular")
          /\ (forall name, name <> "year" -> name <> "season_type" ->
                           lookup name r' = lookup name r).
Proof.
  apply (weekly_page_keeps_columns every_page (SInt 2) (SInt 2020) (SInt 4)
           [[("NAME", SStr "P. Mahomes"); ("QBR", SInt 82)];
            [("NAME", SStr "J. Allen"); ("QBR", SInt 76)]]);
    reflexivity.
Defined.

(** What lines 123 and 124 do to a table that carries [season_type] on two
    columns.  With two rows, the two labels are taken for the two rows'
    values: the page of season code 2 is collected with every row named
    ['postseason'].  With one row, the assignment raises [ValueError], which
    leaves the loader. *)
Example weekly_page_with_repeated_label :
  load_weekly_qbr (fun _ => Return (repeated_label_page 2))
    (PList [SInt 2020]) (PList [SInt 1]) (PList [SInt 2])
  = (Return
       (Frame
          [[("NAME", SStr "P. Mahomes"); ("season_type", SStr "postseason");
            ("QBR", SInt 82); ("season_type", SStr "postseason");
            ("year", SInt 2020)];
           [("NAME", SStr "P. Mahomes"); ("season_type", SStr "postseason");
            ("QBR", SInt 82); ("season_type", SStr "postseason");
            ("year", SInt 2020)]]),
     [Fetch (weekly_url (SInt 2020) (SInt 2) (SInt 1))])
  /\ load_weekly_qbr (fun _ => Return (repeated_label_page 1))
       (PList [SInt 2020]) (PList [SInt 1]) (PList [SInt 2])
     = (Raise ValueError, [Fetch (weekly_url (SInt 2020) (SInt 2) (SInt 1))]).
Proof. split; reflexivity. Qed.

(** * Requests and their parameters *)

(** X6.  [convert_to_list] hands back [None] or a list of integers, nothing
    else, and normalising a normalised value changes nothing: the value
    [load_qbr] stores in the object is stable under further calls. *)
Theorem convert_to_list_stable (v : pyval) :
  (convert_to_list v = PNone
   \/ exists l, convert_to_list v = PList l
                /\ Forall (fun a => isinstance_int a = true) l)
  /\ convert_to_list (convert_to_list v) = convert_to_list v.
Proof.
  split; [| apply convert_to_list_twice].
  destruct v as [a | l]; simpl.
  - destruct (isinstance_int a) eqn:Ha; [right | left; reflexivity].
    exists [a]. split; [reflexivity | repeat constructor; exact Ha].
  - destruct (all_int_loop l) eqn:Hl; [right | left; reflexivity].
    exists l. split; [reflexivity | apply all_int_loop_Forall; exact Hl].
Qed.

Lemma season_of_field (q q' : Qbr) :
  season_type q = season_type q' ->
  season_codes q = season_codes q' /\ season_trace q = season_trace q'.
Proof.
  intros H.
  unfold season_codes, season_trace, convert_season_identifiers,
    bind, get, ret, print, outcome_of, trace_of.
  simpl. rewrite H.
  destruct (py_eq_str (season_type q') "regular"); [split; reflexivity |].
  destruct (py_eq_str (season_type q') "postseason"); [split; reflexivity |].
  destruct (py_eq_str (season_type q') "all"); split; reflexivity.
Qed.

(** X4.  A leaders request does not depend on its weeks: whatever the object
    holds as weeks, an integer, a list, or a value that is no week at all,
    [load_qbr] returns the same result, prints the same and reads the same
    pages.  Only the weeks field of the object afterwards differs. *)
Theorem leaders_request_ignores_weeks
        (read_html : string -> outcome (list DataFrame))
        (q : Qbr) (w : pyval) :
  stat_type q = "leaders" ->
  outcome_of (load_qbr read_html (set_weeks w q))
  = outcome_of (load_qbr read_html q)
  /\ trace_of (load_qbr read_html (set_weeks w q))
     = trace_of (load_qbr read_html q).
Proof.
  intros Hstat. rewrite !load_qbr_run. cbv zeta.
  destruct (season_of_field (set_weeks w q) q eq_refl) as [Hc Ht].
  unfold normalised_object. cbn [years weeks season_type stat_type set_weeks].
  rewrite Hc, Ht, Hstat. split; reflexivity.
Qed.

Lemma leaders_request_ignores_weeks_witness :
  outcome_of
    (load_qbr every_page
       (set_weeks (PScalar (SStr "no week"))
          (init (PScalar (SInt 2020)) (PScalar (SInt 1)) "regular" "leaders")))
  = outcome_of
      (load_qbr every_page
         (init (PScalar (SInt 2020)) (PScalar (SInt 1)) "regular" "leaders"))
  /\ trace_of
       (load_qbr every_page
          (set_weeks (PScalar (SStr "no week"))
             (init (PScalar (SInt 2020)) (PScalar (SInt 1)) "regular" "leaders")))
     = trace_of
         (load_qbr every_page
            (init (PScalar (SInt 2020)) (PScalar (SInt 1)) "regular" "leaders")).
Proof.
  apply (leaders_request_ignores_weeks every_page
           (init (PScalar (SInt 2020)) (PScalar (SInt 1)) "regular" "leaders")
           (PScalar (SStr "no week"))).
  reflexivity.
Defined.

(** X11.  A single integer is the same request as the one-element list
    holding it: for integer [year] and [week], [load_qbr] on
    [Qbr(year, week, ...)] and on [Qbr([year], [week], ...)] returns the
    same result, prints and reads the same, and leaves equal objects. *)
Theorem scalar_request_is_singleton_request
        (read_html : string -> outcome (list DataFrame))
        (year week : scalar) (season stat : string) :
  isinstance_int year = true ->
  isinstance_int week = true ->
  load_qbr read_html (init (PScalar year) (PScalar week) season stat)
  = load_qbr read_html (init (PList [year]) (PList [week]) season stat).
Proof.
  intros Hy Hw. rewrite !load_qbr_run. cbv zeta.
  destruct (season_of_field
              (init (PScalar year) (PScalar week) season stat)
              (init (PList [year]) (PList [week]) season stat) eq_refl)
    as [Hc Ht].
  unfold normalised_object. rewrite Hc, Ht.
  unfold init, convert_to_list. cbn [years weeks stat_type season_type].
  cbn [all_int_loop]. rewrite Hy, Hw. reflexivity.
Qed.

Lemma scalar_request_is_singleton_request_witness :
  load_qbr every_page (init (PScalar (SInt 2020)) (PScalar (SInt 1)) "all" "weekly")
  = load_qbr every_page (init (PList [SInt 2020]) (PList [SInt 1]) "all" "weekly").
Proof.
  apply (scalar_request_is_singleton_request every_page (SInt 2020) (SInt 1));
    reflexivity.
Defined.

(** * Empty and invalid parameters *)

Lemma for_each_noop {S X} (l : list X) (body : X -> M S unit) (s : S) :
  (forall x s', body x s' = (Return tt, s', [])) ->
  for_each l body s = (Return tt, s, []).
Proof.
  intros H. induction l as [| x l IH]; simpl.
  - reflexivity.
  - unfold bind. rewrite H, IH. reflexivity.
Qed.

(** X12.  With an empty list of years, of weeks or of season codes the
    loaders make no turn: they read no page, print ['No data to output.']
    and return the empty list.  With no year to loop over, the weeks are
    not even looked at: a weeks value that cannot be iterated goes
    unnoticed. *)
Theorem loaders_on_empty_lists
        (read_html : string -> outcome (list DataFrame)) :
  (forall (wks : pyval) (season_ids : list scalar),
      load_weekly_qbr read_html (PList []) wks (PList season_ids)
      = (Return EmptyList, [Print no_data_message]))
  /\ (forall yrs season_ids : list scalar,
         load_weekly_qbr read_html (PList yrs) (PList []) (PList season_ids)
         = (Return EmptyList, [Print no_data_message]))
  /\ (forall yrs wks : pyval,
         load_weekly_qbr read_html yrs wks (PList [])
         = (Return EmptyList, [Print no_data_message]))
  /\ (forall season_ids : list scalar,
         load_season_leaders_qbr read_html (PList []) (PList season_ids)
         = (Return EmptyList, [Print no_data_message]))
  /\ (forall yrs : pyval,
         load_season_leaders_qbr read_html yrs (PList [])
         = (Return EmptyList, [Print no_data_message])).
Proof.
  split; [| split; [| split; [| split]]].
  - intros wks season_ids.
    apply (load_weekly_qbr_end read_html _ _ _ (Return tt) no_locals []).
    unfold weekly_loop. rewrite for_in_list. apply for_each_noop.
    intros season_id s. reflexivity.
  - intros yrs season_ids.
    apply (load_weekly_qbr_end read_html _ _ _ (Return tt) no_locals []).
    unfold weekly_loop. rewrite for_in_list. apply for_each_noop.
    intros season_id s. rewrite for_in_list. apply for_each_noop.
    intros year s'. reflexivity.
  - intros yrs wks. reflexivity.
  - intros season_ids.
    apply (load_season_leaders_qbr_end read_html _ _ (Return tt) no_locals []).
    unfold leaders_loop. rewrite for_in_list. apply for_each_noop.
    intros season_id s. reflexivity.
  - intros yrs. reflexivity.
Qed.

(** X14.  Years that are neither an integer nor a list of integers are
    stored as [None], and no page is read.  The weekly request then prints
    the parameter diagnostic and the no-data diagnostic and returns the
    empty list; the leaders request raises [TypeError]: its loader has no
    handler for it. *)
Theorem request_with_invalid_years
        (read_html : string -> outcome (list DataFrame)) (q : Qbr) :
  convert_to_list (years q) = PNone ->
  (stat_type q = "weekly" ->
   load_qbr read_html q
   = (Return EmptyList, normalised_object q,
      season_trace q ++ [Print parameters_message; Print no_data_message]))
  /\ (stat_type q = "leaders" ->
      load_qbr read_html q
      = (Raise TypeError, normalised_object q, season_trace q)).
Proof.
  intros Hy.
  assert (Hw : forall wks,
             load_weekly_qbr read_html PNone wks (season_codes q)
             = (Return EmptyList,
                [Print parameters_message; Print no_data_message])).
  { intros wks.
    apply (load_weekly_qbr_end read_html _ _ _ (Raise TypeError) no_locals []).
    destruct (season_codes_cases q) as [[-> _] | [[-> _] | [[-> _] | [-> _]]]];
      reflexivity. }
  assert (Hl : load_season_leaders_qbr read_html PNone (season_codes q)
               = (Raise TypeError, [])).
  { destruct (season_codes_cases q) as [[-> _] | [[-> _] | [[-> _] | [-> _]]]];
      reflexivity. }
  assert (Hyq : years (normalised_object q) = PNone) by exact Hy.
  assert (Hsq : season_type (normalised_object q) = season_codes q)
    by reflexivity.
  split; intros Hstat; rewrite load_qbr_run; cbv zeta; rewrite Hstat;
    cbn [String.eqb Ascii.eqb Bool.eqb]; rewrite Hyq, Hsq.
  - rewrite Hw. reflexivity.
  - rewrite Hl, app_nil_r. reflexivity.
Qed.

Lemma request_with_invalid_years_witness :
  load_qbr every_page
    (init (PScalar (SStr "2020")) (PScalar (SInt 1)) "regular" "weekly")
  = (Return EmptyList,
     normalised_object
       (init (PScalar (SStr "2020")) (PScalar (SInt 1)) "regular" "weekly"),
     [Print parameters_message; Print no_data_message])
  /\ load_qbr every_page
       (init (PList [SInt 2019; SStr "2020"]) (PScalar (SInt 1))
          "regular" "leaders")
     = (Raise TypeError,
        normalised_object
          (init (PList [SInt 2019; SStr "2020"]) (PScalar (SInt 1))
             "regular" "leaders"),
        []).
Proof.
  split.
  - apply (proj1 (request_with_invalid_years every_page
                    (init (PScalar (SStr "2020")) (PScalar (SInt 1))
                       "regular" "weekly") eq_refl)).
    reflexivity.
  - apply (proj2 (request_with_invalid_years every_page
                    (init (PList [SInt 2019; SStr "2020"]) (PScalar (SInt 1))
                       "regular" "leaders") eq_refl)).
    reflexivity.
Defined.

(** * The exceptions that leave a loader *)

Lemma for_in_iter {S} (v : pyval) (l : list scalar)
      (body : scalar -> M S unit) (s : S) :
  py_iter v = Return l -> for_in v body s = for_each l body s.
Proof.
  intros H. unfold for_in, bind, lift. rewrite H.
  destruct (for_each l body s) as [[o s2] t2]. reflexivity.
Qed.

Lemma for_in_not_iterable {S} (v : pyval) (e : exn)
      (body : scalar -> M S unit) (s : S) :
  py_iter v = Raise e -> for_in v body s = (Raise TypeError, s, []).
Proof.
  intros H. unfold for_in, bind, lift. rewrite H.
  destruct v as [[| b | z | str] | l]; simpl in H; try discriminate H;
    injection H as <-; reflexivity.
Qed.


(** A loop that raises made its turns up to one that raised: the turns
    before returned, the turns after were not made. *)
Lemma for_each_raise_split {S X} (l : list X) (body : X -> M S unit)
      (s : S) (e : exn) :
  outcome_of (for_each l body s) = Raise e ->
  exists pre x post s1 t1 s2 t2,
    l = pre ++ x :: post
    /\ for_each pre body s = (Return tt, s1, t1)
    /\ body x s1 = (Raise e, s2, t2)
    /\ for_each l body s = (Raise e, s2, t1 ++ t2).
Proof.
  revert s. induction l as [| x l IH]; intros s; simpl.
  - unfold ret, outcome_of. simpl. discriminate.
  - unfold bind. destruct (body x s) as [[[[] | e1] s1] t1] eqn:Hx.
    + destruct (for_each l body s1) as [[o2 s2] t2] eqn:Hl.
      unfold outcome_of. simpl. intros ->.
      destruct (IH s1) as [pre [y [post [s3 [t3 [s4 [t4 [Hl1 [Hpre [Hy Hall]]]]]]]]]].
      { rewrite Hl. reflexivity. }
      exists (x :: pre), y, post, s3, (t1 ++ t3), s4, t4.
      rewrite Hl in Hall. injection Hall as -> ->.
      split; [rewrite Hl1; reflexivity |].
      split; [simpl; unfold bind; rewrite Hx, Hpre; reflexivity |].
      split; [exact Hy |].
      rewrite app_assoc. reflexivity.
    + unfold outcome_of. simpl. intros [= ->].
      exists [], x, l, s, [], s1, t1.
      split; [reflexivity |]. split; [reflexivity |].
      split; [exact Hx | reflexivity].
Qed.

(** When every turn reads one page and nothing else, the trace of the turns
    made is the list of their addresses. *)
Lemma for_each_fetches {S X} (url : X -> string) (body : X -> M S unit)
      (l : list X) (s s1 : S) (t1 : list event) :
  (forall x st, trace_of (body x st) = [Fetch (url x)]) ->
  for_each l body s = (Return tt, s1, t1) ->
  t1 = map (fun x => Fetch (url x)) l.
Proof.
  intros Hbody. revert s t1. induction l as [| x l IH]; intros s t1; simpl.
  - unfold ret. intros [= _ <-]. reflexivity.
  - unfold bind. pose proof (Hbody x s) as Hx.
    destruct (body x s) as [[[[] | e] s2] t2]; [| discriminate].
    unfold trace_of in Hx. simpl in Hx. subst t2.
    destruct (for_each l body s2) as [[o3 s3] t3] eqn:Hl.
    intros [= -> -> <-]. simpl. f_equal. apply (IH s2). exact Hl.
Qed.

Section Escapes.

Variable read_html : string -> outcome (list DataFrame).




Lemma leaders_loop_iter (yrs sty : pyval) (ss ys : list scalar) (st : locals) :
  py_iter sty = Return ss -> py_iter yrs = Return ys ->
  leaders_loop read_html yrs sty st
  = for_each (leaders_pages ss ys) (leaders_turn read_html) st.
Proof.
  intros Hs Hy. unfold leaders_loop, leaders_pages.
  rewrite (for_in_iter sty ss _ st Hs), for_each_flat_map.
  apply for_each_ext. intros season_id s1 _.
  rewrite (for_in_iter yrs ys _ s1 Hy), for_each_flat_map.
  apply for_each_ext. intros year s2 _. simpl.
  apply eq_sym, (bind_ret_tt (leaders_page read_html season_id year)).
Qed.

Lemma leaders_page_trace (season_id year : scalar) (st : locals) :
  trace_of (leaders_page read_html season_id year st)
  = [Fetch (leaders_url year season_id)].
Proof.
  rewrite leaders_page_run.
  destruct (read_html (leaders_url year season_id)) as [[| d ds] | e];
    reflexivity.
Qed.


(** Turns that returned read pages that have tables. *)
Lemma leaders_turns_returned (pre : list (scalar * scalar))
      (s0 s1 : locals) (t1 : list event) :
  for_each pre (leaders_turn read_html) s0 = (Return tt, s1, t1) ->
  Forall (leaders_page_read read_html) pre.
Proof.
  revert s0 s1 t1. induction pre as [| q pre IH]; intros s0 s1 t1 Hpre;
    [constructor |].
  simpl in Hpre. unfold bind in Hpre.
  destruct q as [season_id year]. simpl in Hpre.
  rewrite leaders_page_run in Hpre.
  constructor.
  - unfold leaders_page_read, page_table. simpl.
    destruct (read_html (leaders_url year season_id)) as [[| d ds] | e'];
      try discriminate Hpre. discriminate.
  - destruct (read_html (leaders_url year season_id)) as [[| d ds] | e'];
      try discriminate Hpre.
    destruct (for_each pre (leaders_turn read_html) _)
      as [[o3 s3] t3] eqn:Hrest.
    injection Hpre as -> _ _. apply (IH _ s3 t3 Hrest).
Qed.

End Escapes.

Lemma bound_returns (frames : list DataFrame) (e : exn) :
  fst (bound frames) <> Raise e.
Proof. destruct frames; discriminate. Qed.



(** X9.  An exception [e] leaves [load_season_leaders_qbr] in two ways only.
    Either it is the [TypeError] of a season type, or of a years value under
    a season code, that cannot be iterated, raised before any page is read.
    Or the loader iterated over both, the pages before one of the request's
    pages were read and collected, that page's address is the last thing in
    the trace, and reading it raised [e].  It is never [ValueError]. *)
Theorem leaders_load_raises_only
        (read_html : string -> outcome (list DataFrame))
        (yrs sty : pyval) (e : exn) :
  fst (load_season_leaders_qbr read_html yrs sty) = Raise e ->
  e <> ValueError
  /\ ((e = TypeError
       /\ snd (load_season_leaders_qbr read_html yrs sty) = []
       /\ (py_iter sty = Raise TypeError
           \/ exists season_id ss,
               py_iter sty = Return (season_id :: ss)
               /\ py_iter yrs = Raise TypeError))
      \/ exists (ss ys : list scalar) (pre post : list (scalar * scalar))
                (p : scalar * scalar),
          py_iter sty = Return ss /\ py_iter yrs = Return ys
          /\ leaders_pages ss ys = pre ++ p :: post
          /\ Forall (leaders_page_read read_html) pre
          /\ snd (load_season_leaders_qbr read_html yrs sty)
             = leaders_fetches pre ++ [Fetch (leaders_page_url p)]
          /\ read_html (leaders_page_url p) = Raise e).
Proof.
  destruct (leaders_loop read_html yrs sty no_locals) as [[o st] t] eqn:Hloop.
  rewrite (load_season_leaders_qbr_end read_html _ _ o st t Hloop).
  intros H.
  assert (Ho : o = Raise e /\ e <> ValueError).
  { unfold leaders_end in H. destruct o as [[] | e0].
    - exfalso. exact (bound_returns _ _ H).
    - destruct e0; cbn [fst] in H;
        try (exfalso; exact (bound_returns _ _ H));
        injection H as <-; (split; [reflexivity | discriminate]). }
  destruct Ho as [-> Hv]. split; [exact Hv |].
  assert (Hend : forall t0, leaders_end (Raise e) (loc_df st) t0 = (Raise e, t0)).
  { intros t0. unfold leaders_end. destruct e; try reflexivity.
    contradiction Hv. reflexivity. }
  rewrite Hend. cbn [snd].
  destruct (py_iter sty) as [ss | e1] eqn:Hs.
  2:{ assert (He1 : e1 = TypeError).
      { destruct sty as [[| b | z | str] | l]; simpl in Hs;
          try discriminate Hs; injection Hs as <-; reflexivity. }
      subst e1. unfold leaders_loop in Hloop.
      rewrite (for_in_not_iterable sty TypeError _ no_locals Hs) in Hloop.
      injection Hloop as <- _ <-. left.
      split; [reflexivity |]. split; [reflexivity |]. left. reflexivity. }
  destruct (py_iter yrs) as [ys | e2] eqn:Hy.
  2:{ assert (He2 : e2 = TypeError).
      { destruct yrs as [[| b | z | str] | l]; simpl in Hy;
          try discriminate Hy; injection Hy as <-; reflexivity. }
      subst e2. unfold leaders_loop in Hloop.
      rewrite (for_in_iter sty ss _ no_locals Hs) in Hloop.
      destruct ss as [| season_id ss]; [discriminate Hloop |].
      simpl in Hloop. unfold bind in Hloop.
      rewrite (for_in_not_iterable yrs TypeError _ no_locals Hy) in Hloop.
      injection Hloop as <- _ <-. left.
      split; [reflexivity |]. split; [reflexivity |]. right.
      exists season_id, ss. split; reflexivity. }
  right.
  rewrite (leaders_loop_iter read_html yrs sty ss ys no_locals Hs Hy) in Hloop.
  assert (Hout : outcome_of (for_each (leaders_pages ss ys)
                               (leaders_turn read_html) no_locals) = Raise e)
    by (rewrite Hloop; reflexivity).
  destruct (for_each_raise_split _ _ _ _ Hout)
    as [pre [p [post [s1 [t1 [s2 [t2 [Hpages [Hpre [Hp Hall]]]]]]]]]].
  rewrite Hloop in Hall. injection Hall as -> ->.
  exists ss, ys, pre, post, p.
  split; [reflexivity |]. split; [reflexivity |]. split; [exact Hpages |].
  pose proof (leaders_turns_returned read_html pre no_locals s1 t1 Hpre)
    as Hread.
  split; [exact Hread |].
  apply (for_each_fetches leaders_page_url) in Hpre.
  2:{ intros [season_id year] st0. apply leaders_page_trace. }
  destruct p as [season_id year]. simpl in Hp. rewrite leaders_page_run in Hp.
  destruct (read_html (leaders_url year season_id)) as [[| d ds] | e'] eqn:Hr.
  - injection Hp as <- _ _. contradiction Hv. reflexivity.
  - discriminate Hp.
  - injection Hp as <- _ <-. rewrite Hpre. split; [reflexivity |].
    simpl. exact Hr.
Qed.

Lemma leaders_load_raises_only_witness :
  HTTPError <> ValueError
  /\ ((HTTPError = TypeError
       /\ snd (load_season_leaders_qbr
                 (fun url => if String.eqb url (leaders_url (SInt 2020) (SInt 2))
                             then Raise HTTPError else Return sample_page)
                 (PList [SInt 2019; SInt 2020]) (PList [SInt 2])) = []
       /\ (py_iter (PList [SInt 2]) = Raise TypeError
           \/ exists season_id ss,
               py_iter (PList [SInt 2]) = Return (season_id :: ss)
               /\ py_iter (PList [SInt 2019; SInt 2020]) = Raise TypeError))
      \/ exists (ss ys : list scalar) (pre post : list (scalar * scalar))
                (p : scalar * scalar),
          py_iter (PList [SInt 2]) = Return ss
          /\ py_iter (PList [SInt 2019; SInt 2020]) = Return ys
          /\ leaders_pages ss ys = pre ++ p :: post
          /\ Forall (leaders_page_read
                       (fun url =>
                          if String.eqb url (leaders_url (SInt 2020) (SInt 2))
                          then Raise HTTPError else Return sample_page)) pre
          /\ snd (load_season_leaders_qbr
                    (fun url =>
                       if String.eqb url (leaders_url (SInt 2020) (SInt 2))
                       then Raise HTTPError else Return sample_page)
                    (PList [SInt 2019; SInt 2020]) (PList [SInt 2]))
             = leaders_fetches pre ++ [Fetch (leaders_page_url p)]
          /\ (fun url => if String.eqb url (leaders_url (SInt 2020) (SInt 2))
                         then Raise HTTPError else Return sample_page)
               (leaders_page_url p) = Raise HTTPError).
Proof.
  apply (leaders_load_raises_only
           (fun url => if String.eqb url (leaders_url (SInt 2020) (SInt 2))
                       then Raise HTTPError else Return sample_page)
           (PList [SInt 2019; SInt 2020]) (PList [SInt 2]) HTTPError).
  reflexivity.
Defined.

(** * One address per page *)

Lemma string_app_inv_head (p a b : string) :
  (p ++ a)%string = (p ++ b)%string -> a = b.
Proof.
  induction p as [| c p IH]; simpl; intros H.
  - exact H.
  - injection H as H. apply IH. exact H.
Qed.

Lemma py_str_bool_not_int (b : bool) (z : Z) :
  py_str (SBool b) <> py_str (SInt z).
Proof.
  simpl. destruct (to_int_proper z) as [H1 H2].
  destruct (Z.to_int z) as [d | d]; destruct d; destruct b; simpl;
    try discriminate; contradiction.
Qed.

(** [str] is one-to-one on [int] objects, [bool] included. *)
Lemma py_str_inj (a b : scalar) :
  isinstance_int a = true -> isinstance_int b = true ->
  py_str a = py_str b -> a = b.
Proof.
  intros Ha Hb H.
  destruct a as [| x | z | s]; try discriminate Ha;
    destruct b as [| y | z' | s']; try discriminate Hb.
  - destruct x; destruct y; try reflexivity; discriminate H.
  - exfalso. exact (py_str_bool_not_int x z' H).
  - exfalso. symmetry in H. exact (py_str_bool_not_int y z H).
  - f_equal. apply py_str_int_inj. exact H.
Qed.

(** X10.  Pages have addresses of their own: two weekly addresses built from
    integers are equal only for the same year, season code and week, two
    leaders addresses only for the same year and season code, and no
    leaders address is a weekly address. *)
Theorem page_addresses_distinct :
  (forall y s w y' s' w' : scalar,
      isinstance_int y = true -> isinstance_int s = true ->
      isinstance_int w = true -> isinstance_int y' = true ->
      isinstance_int s' = true -> isinstance_int w' = true ->
      weekly_url y s w = weekly_url y' s' w' ->
      y = y' /\ s = s' /\ w = w')
  /\ (forall y s y' s' : scalar,
         isinstance_int y = true -> isinstance_int s = true ->
         isinstance_int y' = true -> isinstance_int s' = true ->
         leaders_url y s = leaders_url y' s' ->
         y = y' /\ s = s')
  /\ (forall y s y' s' w' : scalar,
         leaders_url y s <> weekly_url y' s' w').
Proof.
  split; [| split].
  - intros y s w y' s' w' Hy Hs Hw Hy' Hs' Hw' H.
    assert (Hsplit : forall a b c,
               weekly_url a b c
               = ((((("https://www.espn.com/nfl/qbr/_/view/weekly/season/"
                      ++ py_str a)
                     ++ String "/" "seasontype")
                    ++ String "/" (py_str b))
                   ++ String "/" "week")
                  ++ String "/" (py_str c))%string).
    { intros a b c. unfold weekly_url.
      rewrite !string_append_assoc. reflexivity. }
    rewrite !Hsplit in H.
    apply last_segment in H; try (apply py_str_int_no_slash; assumption).
    destruct H as [H Hweek].
    apply last_segment in H; [| reflexivity | reflexivity].
    destruct H as [H _].
    apply last_segment in H; try (apply py_str_int_no_slash; assumption).
    destruct H as [H Hseason].
    apply last_segment in H; [| reflexivity | reflexivity].
    destruct H as [H _].
    apply string_app_inv_head in H.
    split; [| split]; apply py_str_inj; assumption.
  - intros y s y' s' Hy Hs Hy' Hs' H.
    assert (Hsplit : forall a b,
               leaders_url a b
               = ((("https://www.espn.com/nfl/qbr/_/season/" ++ py_str a)
                   ++ String "/" "seasontype")
                  ++ String "/" (py_str b))%string).
    { intros a b. unfold leaders_url.
      rewrite !string_append_assoc. reflexivity. }
    rewrite !Hsplit in H.
    apply last_segment in H; try (apply py_str_int_no_slash; assumption).
    destruct H as [H Hseason].
    apply last_segment in H; [| reflexivity | reflexivity].
    destruct H as [H _].
    apply string_app_inv_head in H.
    split; apply py_str_inj; assumption.
  - intros y s y' s' w'. apply leaders_url_not_weekly.
Qed.

Lemma page_addresses_distinct_witness :
  SInt 2020 = SInt 2020 /\ SInt 3 = SInt 3 /\ SInt 5 = SInt 5.
Proof.
  apply (proj1 page_addresses_distinct
           (SInt 2020) (SInt 3) (SInt 5) (SInt 2020) (SInt 3) (SInt 5));
    reflexivity.
Defined.

(** * What [__init__] stores *)

Lemma py_lower_char_twice (c : ascii) :
  py_lower_char (py_lower_char c) = py_lower_char c.
Proof.
  destruct c as [[] [] [] [] [] [] [] []]; reflexivity.
Qed.

Lemma py_isspace_lower (c : ascii) :
  py_isspace (py_lower_char c) = py_isspace c.
Proof.
  destruct c as [[] [] [] [] [] [] [] []]; reflexivity.
Qed.

Lemma lower_twice (s : string) : lower (lower s) = lower s.
Proof.
  induction s as [| c s IH]; simpl; [| rewrite py_lower_char_twice, IH];
    reflexivity.
Qed.

Lemma lower_append (a b : string) :
  lower (a ++ b) = (lower a ++ lower b)%string.
Proof.
  induction a as [| c a IH]; simpl; [| rewrite IH]; reflexivity.
Qed.

Lemma all_space_lower (s : string) : all_space (lower s) = all_space s.
Proof.
  induction s as [| c s IH]; simpl; [| rewrite py_isspace_lower, IH];
    reflexivity.
Qed.

Lemma lower_lstrip (s : string) : lower (lstrip s) = lstrip (lower s).
Proof.
  induction s as [| c s IH]; simpl; [reflexivity |].
  rewrite py_isspace_lower. destruct (py_isspace c); [exact IH | reflexivity].
Qed.

Lemma lower_rstrip (s : string) : lower (rstrip s) = rstrip (lower s).
Proof.
  induction s as [| c s IH]; simpl; [reflexivity |].
  rewrite <- IH, py_isspace_lower.
  destruct (rstrip s) as [| c' r]; simpl.
  - destruct (py_isspace c); reflexivity.
  - reflexivity.
Qed.

Lemma lstrip_all_space (pad s : string) :
  all_space pad = true -> lstrip (pad ++ s) = lstrip s.
Proof.
  induction pad as [| c pad IH]; simpl; intros H; [reflexivity |].
  apply andb_true_iff in H. destruct H as [Hc Hpad].
  rewrite Hc. apply IH. exact Hpad.
Qed.

Lemma rstrip_all_space (pad : string) :
  all_space pad = true -> rstrip pad = EmptyString.
Proof.
  induction pad as [| c pad IH]; simpl; intros H; [reflexivity |].
  apply andb_true_iff in H. destruct H as [Hc Hpad].
  rewrite (IH Hpad), Hc. reflexivity.
Qed.

Lemma rstrip_append_space (s pad : string) :
  all_space pad = true -> rstrip (s ++ pad) = rstrip s.
Proof.
  intros H. induction s as [| c s IH]; simpl.
  - apply rstrip_all_space. exact H.
  - rewrite IH. reflexivity.
Qed.

Lemma strip_append_space (s pad : string) :
  all_space pad = true -> strip (s ++ pad) = strip s.
Proof.
  intros H. unfold strip. induction s as [| c s IH]; simpl.
  - assert (Hpad : lstrip pad = EmptyString).
    { induction pad as [| x pad IHp]; simpl; [reflexivity |].
      simpl in H. apply andb_true_iff in H. destruct H as [Hx Hp].
      rewrite Hx. apply IHp. exact Hp. }
    rewrite Hpad. reflexivity.
  - destruct (py_isspace c); [exact IH |].
    apply (rstrip_append_space (String c s) pad H).
Qed.

Lemma rstrip_cons (c : ascii) (s : string) :
  rstrip (String c s)
  = match rstrip s with
    | EmptyString => if py_isspace c then EmptyString else String c EmptyString
    | r => String c r
    end.
Proof. reflexivity. Qed.

Lemma rstrip_twice (s : string) : rstrip (rstrip s) = rstrip s.
Proof.
  induction s as [| c s IH]; [reflexivity |].
  rewrite (rstrip_cons c s).
  destruct (rstrip s) as [| c' r] eqn:Hr.
  - destruct (py_isspace c) eqn:Hc; [reflexivity |].
    rewrite rstrip_cons. cbn [rstrip]. rewrite Hc. reflexivity.
  - rewrite rstrip_cons, IH. reflexivity.
Qed.

Lemma lstrip_rstrip_stripped (s : string) :
  lstrip s = s -> lstrip (rstrip s) = rstrip s.
Proof.
  destruct s as [| c s]; simpl; [reflexivity |].
  destruct (py_isspace c) eqn:Hc.
  - intros H. exfalso.
    assert (Hlen : forall t, (String.length (lstrip t) <= String.length t)%nat).
    { induction t as [| x t IHt]; simpl; [lia |].
      destruct (py_isspace x); simpl; lia. }
    specialize (Hlen s). rewrite H in Hlen. simpl in Hlen. lia.
  - intros _. destruct (rstrip s); simpl; rewrite Hc; reflexivity.
Qed.

Lemma lstrip_twice (s : string) : lstrip (lstrip s) = lstrip s.
Proof.
  induction s as [| c s IH]; simpl; [reflexivity |].
  destruct (py_isspace c) eqn:Hc; [exact IH |].
  simpl. rewrite Hc. reflexivity.
Qed.

Lemma strip_twice (s : string) : strip (strip s) = strip s.
Proof.
  unfold strip.
  rewrite (lstrip_rstrip_stripped (lstrip s) (lstrip_twice s)).
  apply rstrip_twice.
Qed.

Lemma lower_strip (s : string) : lower (strip s) = strip (lower s).
Proof.
  unfold strip. rewrite lower_rstrip, lower_lstrip. reflexivity.
Qed.

Lemma normalized_twice (raw : string) :
  normalized (normalized raw) = normalized raw.
Proof.
  unfold normalized.
  rewrite lower_strip, lower_twice. apply strip_twice.
Qed.

Lemma normalized_padded (l r raw : string) :
  all_space l = true -> all_space r = true ->
  normalized (l ++ raw ++ r) = normalized raw.
Proof.
  intros Hl Hr. unfold normalized.
  rewrite !lower_append.
  unfold strip at 1. rewrite lstrip_all_space by (rewrite all_space_lower; exact Hl).
  fold (strip (lower raw ++ lower r)).
  apply strip_append_space. rewrite all_space_lower. exact Hr.
Qed.

Lemma py_lower_swap_case (c : ascii) :
  py_lower_char (swap_case_char c) = py_lower_char c.
Proof.
  destruct c as [[] [] [] [] [] [] [] []]; reflexivity.
Qed.

Lemma lower_case_variant (a b : string) :
  case_variant a b = true -> lower a = lower b.
Proof.
  revert b. induction a as [| x a IH]; intros [| y b]; simpl; intros H;
    try discriminate H; [reflexivity |].
  apply andb_true_iff in H. destruct H as [Hxy Hab].
  rewrite (IH b Hab). f_equal.
  apply orb_true_iff in Hxy. destruct Hxy as [Hxy | Hxy];
    apply Ascii.eqb_eq in Hxy; subst y.
  - reflexivity.
  - symmetry. apply py_lower_swap_case.
Qed.

(** X7.  [__init__] stores the season type and the stat type lowered and
    stripped: white space around them makes no difference to the object,
    nor does the case of their ASCII letters (['ReGuLaR'] and ['regular']
    give the same object), and the stored strings are already in the form a
    further [lower().strip()] would give. *)
Theorem init_ignores_case_and_padding
        (yrs wks : pyval) (season stat : string) :
  (forall l r l' r' : string,
      all_space l = true -> all_space r = true ->
      all_space l' = true -> all_space r' = true ->
      init yrs wks (l ++ season ++ r) (l' ++ stat ++ r') = init yrs wks season stat)
  /\ (forall season' stat' : string,
         case_variant season season' = true ->
         case_variant stat stat' = true ->
         init yrs wks season' stat' = init yrs wks season stat)
  /\ init yrs wks (normalized season) (normalized stat) = init yrs wks season stat.
Proof.
  split; [| split].
  - intros l r l' r' Hl Hr Hl' Hr'. unfold init.
    fold (normalized (l ++ season ++ r)). fold (normalized (l' ++ stat ++ r')).
    rewrite !normalized_padded by assumption. reflexivity.
  - intros season' stat' Hs Ht. unfold init.
    rewrite (lower_case_variant season season' Hs).
    rewrite (lower_case_variant stat stat' Ht). reflexivity.
  - unfold init.
    fold (normalized (normalized season)). fold (normalized (normalized stat)).
    rewrite !normalized_twice. reflexivity.
Qed.

Lemma init_ignores_case_and_padding_witness :
  init (PScalar (SInt 2020)) (PScalar (SInt 1))
       ("  " ++ "ReGuLaR" ++ String "010" " ") ("" ++ "WEEKLY" ++ " ")
  = {| years := PScalar (SInt 2020);
       weeks := PScalar (SInt 1);
       season_type := PScalar (SStr "regular");
       stat_type := "weekly" |}.
Proof.
  exact (eq_trans
           (proj1 (init_ignores_case_and_padding
                     (PScalar (SInt 2020)) (PScalar (SInt 1)) "ReGuLaR" "WEEKLY")
                  "  " (String "010" " ") "" " "
                  eq_refl eq_refl eq_refl eq_refl)
           (proj1 (proj2 (init_ignores_case_and_padding
                            (PScalar (SInt 2020)) (PScalar (SInt 1))
                            "regular" "weekly"))
                  "ReGuLaR" "WEEKLY" eq_refl eq_refl)).
Defined.
